(** * Job identity tracking and lifecycle polling of the Flink SQL benchmark

    Shallow embedding of [src/bigdata/bench/flink_bench.py]: the baseline
    capture, the poll loop of [_run_sql_job], the per-job metrics collection
    of [_get_job_metrics], the cleanup of [cancel_all_jobs], the summary
    of [run_benchmark], and [get_host_ip] and [main] around them.

    The Flink REST API, the docker command line and the clock are the
    environment.  Every answer of the environment is an input of the model
    (a script of responses); every request the code issues is recorded in
    a trace, so that statements can speak about what was sent and when. *)

From Stdlib Require Import ZArith PrimFloat SpecFloat FloatOps.
From stdpp Require Import gmap strings list.

Set Default Proof Using "Type".
Local Open Scope string_scope.
Local Open Scope Z_scope.
Local Open Scope list_scope.

(** ** Data model: the JSON documents of the REST API *)

(** One entry of [GET /jobs]: [{"id": ..., "status": ...}].  Entries are
    taken as the REST API documents them, with both keys present and both
    values strings; the status is kept as the string the program compares. *)
Record Job := mkJob { id_of : string; status_of : string }.

(** [vertex["metrics"]]: each counter may be absent ([vm.get(k, 0)]). *)
Record VertexMetrics := mkVM {
  read_records : option Z;
  write_records : option Z;
  read_bytes : option Z;
  write_bytes : option Z
}.

(** One entry of [job_details["vertices"]]; [vertex.get("metrics", {})]. *)
Record Vertex := mkVertex { v_metrics : option VertexMetrics }.

(** The answer of [GET /jobs/{id}]; a key may be absent.  The numbers are
    JSON integers, as the REST API documents them. *)
Record JobDetails := mkDetails {
  d_name : option string;
  d_duration : option Z;
  d_vertices : option (list Vertex)
}.

(** The [job_metrics] dictionary built by [_get_job_metrics]. *)
Record JobMetrics := mkJM {
  jm_id : string;
  jm_name : string;
  jm_status : string;
  duration_ms : Z;
  records_in : Z;
  records_out : Z;
  bytes_in : Z;
  bytes_out : Z
}.

(** The dictionary returned by [_get_job_metrics]: [{}] is [None],
    [{"jobs": l}] is [Some l]. *)
Definition Metrics := option (list JobMetrics).

(** ** Identity resolution (lines 235-243 and 273-277) *)

(** [for job in jobs: existing_job_ids.add(job["id"])]. *)
Definition add_ids (jobs : list Job) (s : gset string) : gset string :=
  foldl (fun acc job => {[ id_of job ]} ∪ acc) s jobs.

(** The baseline: the set stays empty when the listing raises. *)
Definition existing_ids_of (listing : option (list Job)) : gset string :=
  match listing with
  | Some jobs => add_ids jobs ∅
  | None => ∅
  end.

(** [new_job = None; for job in jobs: if job["id"] not in existing: new_job = job; break]. *)
Fixpoint find_new_job (existing_job_ids : gset string) (jobs : list Job)
  : option Job :=
  match jobs with
  | [] => None
  | job :: rest =>
      if decide (id_of job ∈ existing_job_ids)
      then find_new_job existing_job_ids rest
      else Some job
  end.

(** ** Effects: exceptions and the trace of requests *)

(** The exceptions the modelled calls raise. *)
Inductive Exn :=
  | URLError             (* urllib / json failure of an HTTP exchange *)
  | CalledProcessError   (* subprocess.run(check=True), nonzero exit *)
  | OSError              (* the file cannot be written, the program cannot be started *)
  | UnicodeDecodeError   (* the output of a child process is not text *)
  | OverflowError.       (* an int too large for a float *)

(** What the program does to its environment, in program order. *)
Inductive Event :=
  | EvWriteFile (path : string)          (* open(sql_file, "w"); f.write(sql) *)
  | EvRun (cmd : list string)            (* subprocess.run(cmd, ...) *)
  | EvGetJobs                            (* GET /jobs *)
  | EvGetJob (job_id : string)           (* GET /jobs/{job_id} *)
  | EvCancel (job_id : string)           (* PATCH /jobs/{job_id}/cancel *)
  | EvSleep (seconds : Z)                (* time.sleep(seconds) *)
  | EvThroughput (records_in : Z) (duration_sec throughput : float).
                                         (* the "Performance Metrics" block *)

Inductive outcome (A : Type) :=
  | Ret (a : A)
  | Raise (e : Exn).
Arguments Ret {A} a.
Arguments Raise {A} e.

(** A computation: the events it emitted and how it ended. *)
Definition M (A : Type) : Type := (list Event * outcome A)%type.

Definition ret {A} (a : A) : M A := ([], Ret a).

Definition raise {A} (e : Exn) : M A := ([], Raise e).

Definition bind {A B} (m : M A) (k : A -> M B) : M B :=
  match m with
  | (t, Ret a) => let '(t', o) := k a in (t ++ t', o)
  | (t, Raise e) => (t, Raise e)
  end.

(** [try: body  except Exception: handler]. *)
Definition try_except {A} (body : M A) (handler : Exn -> M A) : M A :=
  match body with
  | (t, Raise e) => let '(t', o) := handler e in (t ++ t', o)
  | done => done
  end.

Definition emit (e : Event) : M unit := ([e], Ret tt).

Definition trace_of {A} (m : M A) : list Event := fst m.
Definition outcome_of {A} (m : M A) : outcome A := snd m.

Declare Scope prog_scope.
Delimit Scope prog_scope with prog.
Notation "'let*' x ':=' c 'in' k" := (bind c (fun x => k))
  (at level 10, x pattern, c at level 100, k at level 200) : prog_scope.
Local Open Scope prog_scope.

Arguments bind : simpl never.
Arguments try_except : simpl never.

(** ** The environment *)

(** How a call of [subprocess.run] ends: the child process exits with a
    return code and the call returns; or the child cannot be started at
    all and the call raises OSError; or what the child printed cannot be
    decoded and the call raises UnicodeDecodeError (a call that captures
    the output as text, like that of the SQL client, can end so). *)
Inductive ProcOutcome :=
  | Exited (returncode : Z)
  | SpawnFailed
  | DecodeFailed.

(** The REST endpoint as one call of [_get_job_metrics] sees it; [None] is
    an exchange that raises (connection refused, timeout, bad JSON).  A
    listing without the ["jobs"] key reads as the empty list
    ([jobs_data.get("jobs", [])]).  The answer to a details request is
    given per job identifier: a call with a target asks for the details
    of at most one job (see [jobs_to_check_target]). *)
Record Rest := mkRest {
  jobs_resp : option (list Job);
  detail_resp : string -> option JobDetails
}.

(** What the control plane answers during one tick of the poll loop. *)
Record PollTick := mkTick {
  poll_jobs : option (list Job);     (* the loop's own GET /jobs *)
  tick_rest : Rest                   (* the requests of _get_job_metrics *)
}.

(** What the control plane answers during the cleanup; identifiers are
    unique within a listing, so the answer to a cancel request is given
    per job identifier. *)
Record Cleanup := mkCleanup {
  cleanup_jobs : option (list Job);
  cancel_resp : string -> bool       (* does PATCH /jobs/{id}/cancel succeed *)
}.

(** Everything outside the program during one [run_benchmark]. *)
Record World := mkWorld {
  cleanup : Cleanup;
  write_ok : bool;                   (* can /tmp/flink_<name>.sql be written *)
  docker_cp : ProcOutcome;
  baseline_jobs : option (list Job);
  start_clock : float;                   (* time.time() before the submission *)
  submission : ProcOutcome;          (* sql-client.sh *)
  ticks : nat -> PollTick;
  end_clock : float                      (* time.time() after the loop *)
}.

(** ** Primitive calls *)

(** [urllib.request.urlopen] followed by reading and decoding the answer. *)
Definition urlopen {A} (req : Event) (resp : option A) : M A :=
  let* _ := emit req in
  match resp with
  | Some a => ret a
  | None => raise URLError
  end.

Definition sleep (seconds : Z) : M unit := emit (EvSleep seconds).

Definition write_file (path : string) (ok : bool) : M unit :=
  let* _ := emit (EvWriteFile path) in
  if ok then ret tt else raise OSError.

(** The return code of a [CompletedProcess]. *)
Definition CompletedProcess := Z.

(** [run(cmd, check, capture)], lines 34-39: with [check] a nonzero exit
    raises; [capture] selects whether the output is kept, as text.  How
    the call ends is the environment's answer. *)
Definition run (proc : ProcOutcome) (cmd : list string) (check capture : bool)
  : M CompletedProcess :=
  let* _ := emit (EvRun cmd) in
  match proc with
  | SpawnFailed => raise OSError
  | DecodeFailed => raise UnicodeDecodeError
  | Exited returncode =>
      if check && negb (returncode =? 0)
      then raise CalledProcessError
      else ret returncode
  end.

(** ** [_get_job_metrics] (lines 319-383) *)

(** Truth value of [target_job_id]: [None] and the empty string are false. *)
Definition truthy (target_job_id : option string) : bool :=
  match target_job_id with
  | Some s => negb (String.eqb s "")
  | None => false
  end.

(** [job_id == target_job_id]. *)
Definition is_target (job_id : string) (target_job_id : option string) : bool :=
  match target_job_id with
  | Some s => String.eqb job_id s
  | None => false
  end.

(** Lines 337-350: the jobs whose details are fetched.  With a target the
    scan stops at the first job of that id; without one every job that is
    not CANCELED is kept. *)
Fixpoint jobs_to_check (target_job_id : option string) (jobs : list Job)
  : list Job :=
  match jobs with
  | [] => []
  | job :: rest =>
      if truthy target_job_id then
        if is_target (id_of job) target_job_id
        then [job]
        else jobs_to_check target_job_id rest
      else
        if negb (String.eqb (status_of job) "CANCELED")
        then job :: jobs_to_check target_job_id rest
        else jobs_to_check target_job_id rest
  end.

(** Lines 372-376: one vertex added to the running totals. *)
Definition add_vertex (job_metrics : JobMetrics) (vertex : Vertex) : JobMetrics :=
  let vm := default (mkVM None None None None) (v_metrics vertex) in
  {| jm_id := jm_id job_metrics;
     jm_name := jm_name job_metrics;
     jm_status := jm_status job_metrics;
     duration_ms := duration_ms job_metrics;
     records_in := records_in job_metrics + default 0 (read_records vm);
     records_out := records_out job_metrics + default 0 (write_records vm);
     bytes_in := bytes_in job_metrics + default 0 (read_bytes vm);
     bytes_out := bytes_out job_metrics + default 0 (write_bytes vm) |}.

(** Lines 360-376: the totals of one job, starting from zero. *)
Definition job_metrics_of (job : Job) (job_details : JobDetails) : JobMetrics :=
  foldl add_vertex
    {| jm_id := id_of job;
       jm_name := default "unknown" (d_name job_details);
       jm_status := status_of job;
       duration_ms := default 0 (d_duration job_details);
       records_in := 0;
       records_out := 0;
       bytes_in := 0;
       bytes_out := 0 |}
    (default [] (d_vertices job_details)).

(** Lines 352-378: [for job in jobs_to_check: ... metrics["jobs"].append(...)]. *)
Fixpoint collect_metrics (rest : Rest) (to_check : list Job)
    (jobs_acc : list JobMetrics) : M (list JobMetrics) :=
  match to_check with
  | [] => ret jobs_acc
  | job :: more =>
      let* job_details :=
        urlopen (EvGetJob (id_of job)) (detail_resp rest (id_of job)) in
      collect_metrics rest more (jobs_acc ++ [job_metrics_of job job_details])
  end.

Definition _get_job_metrics (rest : Rest) (target_job_id : option string)
  : M Metrics :=
  try_except
    (let* jobs := urlopen EvGetJobs (jobs_resp rest) in
     let* collected :=
       collect_metrics rest (jobs_to_check target_job_id jobs) [] in
     ret (Some collected))
    (fun _ => ret None).

(** ** [cancel_all_jobs] (lines 386-403) *)

(** Lines 394-401.  A cancel request that raises leaves the loop: the
    [try] encloses the whole [for]. *)
Fixpoint cancel_running (cancel : string -> bool) (jobs : list Job) : M unit :=
  match jobs with
  | [] => ret tt
  | job :: rest =>
      if String.eqb (status_of job) "RUNNING" then
        let* _ :=
          urlopen (EvCancel (id_of job))
                  (if cancel (id_of job) then Some tt else None) in
        cancel_running cancel rest
      else cancel_running cancel rest
  end.

Definition cancel_all_jobs (c : Cleanup) : M unit :=
  try_except
    (let* jobs := urlopen EvGetJobs (cleanup_jobs c) in
     cancel_running (cancel_resp c) jobs)
    (fun _ => ret tt).

(** ** [_run_sql_job] (lines 218-316) *)

Definition max_wait : Z := 120.
Definition poll_interval : Z := 2.

(** [status in ["FINISHED", "FAILED", "CANCELED"]]. *)
Definition is_terminal (status : string) : bool :=
  existsb (String.eqb status) ["FINISHED"; "FAILED"; "CANCELED"].

(** The variables the poll loop assigns (lines 260-262). *)
Record Locals := mkLocals {
  job_id : option string;
  final_status : string;
  final_metrics : Metrics
}.

Definition initial_locals : Locals :=
  {| job_id := None; final_status := "UNKNOWN"; final_metrics := None |}.

Inductive Ctl := Continue | Break.

(** Lines 265-301, one iteration.  The only statement of the [try] block
    that can raise is the listing request, which precedes every
    assignment, so the handler resumes with the variables unchanged. *)
Definition poll_tick (existing_job_ids : gset string) (tk : PollTick)
    (st : Locals) : M (Locals * Ctl) :=
  let* _ := sleep poll_interval in
  try_except
    (let* jobs := urlopen EvGetJobs (poll_jobs tk) in
     match find_new_job existing_job_ids jobs with
     | Some new_job =>
         let job_id' := id_of new_job in
         let status := status_of new_job in
         let* metrics := _get_job_metrics (tick_rest tk) (Some job_id') in
         if is_terminal status
         then ret ({| job_id := Some job_id';
                      final_status := status;
                      final_metrics := metrics |}, Break)
         else ret ({| job_id := Some job_id';
                      final_status := final_status st;
                      final_metrics := final_metrics st |}, Continue)
     | None => ret (st, Continue)
     end)
    (fun _ => ret (st, Continue)).

(** [for _ in range(n): ...] from tick number [i] on. *)
Fixpoint poll_loop (existing_job_ids : gset string) (tks : nat -> PollTick)
    (i n : nat) (st : Locals) : M Locals :=
  match n with
  | O => ret st
  | S n' =>
      let* step := poll_tick existing_job_ids (tks i) st in
      let '(st', ctl) := step in
      match ctl with
      | Break => ret st'
      | Continue => poll_loop existing_job_ids tks (S i) n' st'
      end
  end.

(** [range(max_wait // poll_interval)]. *)
Definition tick_budget : nat := Z.to_nat (max_wait / poll_interval).

(** The dictionary [_run_sql_job] returns. *)
Record Result := mkResult {
  res_job_name : string;
  res_job_id : option string;
  res_status : string;
  res_elapsed_sec : float;
  res_metrics : Metrics
}.

Definition sql_file_of (job_name : string) : string :=
  String.append "/tmp/flink_" (String.append job_name ".sql").

Definition cp_cmd (sql_file : string) : list string :=
  ["docker"; "cp"; sql_file; "flink-jobmanager:/tmp/job.sql"].

Definition submit_cmd : list string :=
  ["docker"; "exec"; "flink-jobmanager"; "/opt/flink/bin/sql-client.sh";
   "embedded"; "-f"; "/tmp/job.sql"].

(** Lines 235-243. *)
Definition capture_baseline (listing : option (list Job)) : M (gset string) :=
  try_except
    (let* jobs := urlopen EvGetJobs listing in
     ret (add_ids jobs ∅))
    (fun _ => ret ∅).

(** Lines 305-308: the override applied after the loop. *)
Definition apply_fallback (final_status : string) (returncode : Z) : string :=
  if String.eqb final_status "UNKNOWN" && (returncode =? 0)
  then "FINISHED"
  else final_status.

(** The text of the SQL script is not interpreted by this program and is
    left out of the model. *)
Definition _run_sql_job (w : World) (job_name : string) : M Result :=
  let sql_file := sql_file_of job_name in
  let* _ := write_file sql_file (write_ok w) in
  let* _ := run (docker_cp w) (cp_cmd sql_file) true false in
  let* existing_job_ids := capture_baseline (baseline_jobs w) in
  let start_time := start_clock w in
  let* result := run (submission w) submit_cmd false true in
  let* st := poll_loop existing_job_ids (ticks w) 0 tick_budget initial_locals in
  let elapsed := PrimFloat.sub (end_clock w) start_time in
  ret {| res_job_name := job_name;
         res_job_id := job_id st;
         res_status := apply_fallback (final_status st) result;
         res_elapsed_sec := elapsed;
         res_metrics := final_metrics st |}.

Definition run_identity_benchmark (w : World) : M Result :=
  _run_sql_job w "identity".

Definition run_wordcount_benchmark (w : World) : M Result :=
  _run_sql_job w "wordcount".

Definition run_window_benchmark (w : World) : M Result :=
  _run_sql_job w "window".

(** ** [run_benchmark] (lines 406-478) *)

(** *** Python floats

    A Python [float] is an IEEE 754 double: the primitive floats of Rocq.
    Arithmetic on two floats never raises; what can raise is the passage
    from an [int], which is unbounded, to a float. *)

(** An [int] as an unrounded binary number. *)
Definition spec_of_int (n : Z) : spec_float :=
  match n with
  | Z0 => S754_zero false
  | Zpos p => S754_finite false p 0
  | Zneg p => S754_finite true p 0
  end.

(** The double nearest to [a / b], ties to even. *)
Definition nearest_double (a : Z) (b : positive) : float :=
  SF2Prim (SFdiv prec emax (spec_of_int a) (S754_finite false b 0)).

(** The least magnitude that rounds beyond the largest double
    (1.7976931348623157e308): halfway between it and 2^1024. *)
Definition overflow_bound : Z := 2 ^ 1024 - 2 ^ 970.

(** [a / b] on two [int]s, [b] positive: the quotient correctly rounded,
    or OverflowError ("integer division result too large for a float"). *)
Definition int_truediv (a : Z) (b : positive) : M float :=
  if Z.abs a <? overflow_bound * Z.pos b
  then ret (nearest_double a b)
  else raise OverflowError.

(** The conversion of the [int] operand of [int / float]: OverflowError
    ("int too large to convert to float") beyond the largest double. *)
Definition float_of_int (n : Z) : M float :=
  if Z.abs n <? overflow_bound
  then ret (nearest_double n 1)
  else raise OverflowError.

Arguments overflow_bound : simpl never.
Arguments nearest_double : simpl never.

(** [x > 0] on a float; false on a NaN. *)
Definition float_positive (x : float) : bool := PrimFloat.ltb PrimFloat.zero x.

(** Line 459: [duration_ms / 1000 if duration_ms > 0 else elapsed], a true
    division of two [int]s. *)
Definition duration_sec_of (duration_ms : Z) (elapsed : float) : M float :=
  if 0 <? duration_ms then int_truediv duration_ms 1000 else ret elapsed.

(** Line 466: [records_in / duration_sec if duration_sec > 0 else 0], a true
    division of an [int] by a float.  The [int] zero of the other branch
    is given as the float zero, which the format [,.0f] prints alike. *)
Definition throughput_of (records_in : Z) (duration_sec : float) : M float :=
  if float_positive duration_sec
  then let* records := float_of_int records_in in
       ret (PrimFloat.div records duration_sec)
  else ret PrimFloat.zero.

(** Lines 452-466: the figures of the "Performance Metrics" block, computed
    only when [metrics.get("jobs")] holds.  Either division can raise
    OverflowError. *)
Definition performance (status : string) (elapsed : float) (metrics : Metrics)
    (num_records : Z) : M (option (Z * float * float)) :=
  match metrics with
  | Some (job :: _) =>
      let records_in0 := records_in job in
      let* duration_sec := duration_sec_of (duration_ms job) elapsed in
      let records_in1 :=
        if String.eqb status "FINISHED" then num_records else records_in0 in
      let* throughput := throughput_of records_in1 duration_sec in
      ret (Some (records_in1, duration_sec, throughput))
  | _ => ret None
  end.

(** Lines 440-476: the summary; the block is printed (lines 468-474) once
    its figures are computed. *)
Definition print_summary (result : Result) (num_records : Z) : M unit :=
  let* figures :=
    performance (res_status result) (res_elapsed_sec result)
                (res_metrics result) num_records in
  match figures with
  | Some (records_in, duration_sec, throughput) =>
      emit (EvThroughput records_in duration_sec throughput)
  | None => ret tt
  end.

(** [None] is the empty dictionary returned for an unknown workload. *)
Definition run_benchmark (w : World) (workload : string) (num_records : Z)
  : M (option Result) :=
  let* _ := cancel_all_jobs (cleanup w) in
  let* _ := sleep 2 in
  if String.eqb workload "identity" then
    let* result := run_identity_benchmark w in
    let* _ := print_summary result num_records in
    ret (Some result)
  else if String.eqb workload "wordcount" then
    let* result := run_wordcount_benchmark w in
    let* _ := print_summary result num_records in
    ret (Some result)
  else if String.eqb workload "window" then
    let* result := run_window_benchmark w in
    let* _ := print_summary result num_records in
    ret (Some result)
  else ret None.

(** ** Vocabulary of the statements *)

(** Per-task counters as the specification names them. *)
Record TaskMetrics := mkTask {
  recordsIn : Z;
  recordsOut : Z;
  bytesIn : Z;
  bytesOut : Z
}.

(** The vertex document that carries exactly these counters. *)
Definition vertex_of_task (t : TaskMetrics) : Vertex :=
  mkVertex (Some (mkVM (Some (recordsIn t)) (Some (recordsOut t))
                       (Some (bytesIn t)) (Some (bytesOut t)))).

Definition sumZ (l : list Z) : Z := foldr Z.add 0 l.

(** A counter of a vertex document, absent fields reading as zero. *)
Definition counter (field : VertexMetrics -> option Z) (v : Vertex) : Z :=
  match v_metrics v with
  | Some vm => default 0 (field vm)
  | None => 0
  end.

(** The job a tick's listing resolves to, if the listing arrives. *)
Definition observed (existing_job_ids : gset string) (tk : PollTick)
  : option Job :=
  match poll_jobs tk with
  | Some jobs => find_new_job existing_job_ids jobs
  | None => None
  end.

(** The tick shows the resolved job in a terminal status. *)
Definition terminal_seen (existing_job_ids : gset string) (tk : PollTick)
  : bool :=
  match observed existing_job_ids tk with
  | Some job => is_terminal (status_of job)
  | None => false
  end.

(** Number of [time.sleep] calls in a trace. *)
Fixpoint naps (t : list Event) : nat :=
  match t with
  | [] => O
  | EvSleep _ :: t' => S (naps t')
  | _ :: t' => naps t'
  end.

(** The time the [time.sleep] calls of a trace add up to. *)
Fixpoint slept (t : list Event) : Z :=
  match t with
  | [] => 0
  | EvSleep s :: t' => s + slept t'
  | _ :: t' => slept t'
  end.

(** Number of [GET /jobs] requests in a trace. *)
Fixpoint listings (t : list Event) : nat :=
  match t with
  | [] => O
  | EvGetJobs :: t' => S (listings t')
  | _ :: t' => listings t'
  end.

(** The ids that are sent a cancel request: the RUNNING jobs in listing
    order, up to and including the first whose request fails. *)
Fixpoint cancel_requests (cancel : string -> bool) (jobs : list Job)
  : list string :=
  match jobs with
  | [] => []
  | job :: rest =>
      if String.eqb (status_of job) "RUNNING" then
        if cancel (id_of job)
        then id_of job :: cancel_requests cancel rest
        else [id_of job]
      else cancel_requests cancel rest
  end.

(** The identifiers of the RUNNING jobs, in listing order. *)
Definition running_ids (jobs : list Job) : list string :=
  id_of <$> List.filter (fun j => String.eqb (status_of j) "RUNNING") jobs.

(** The loop as [_run_sql_job] runs it. *)
Definition monitor (w : World) : M Locals :=
  poll_loop (existing_ids_of (baseline_jobs w)) (ticks w) 0 tick_budget
            initial_locals.

(** The events that precede the poll loop. *)
Definition prologue (job_name : string) : list Event :=
  [EvWriteFile (sql_file_of job_name); EvRun (cp_cmd (sql_file_of job_name));
   EvGetJobs; EvRun submit_cmd].

(** The workloads [run_benchmark] dispatches on. *)
Definition known_workload (workload : string) : Prop :=
  workload = "identity" \/ workload = "wordcount" \/ workload = "window".

(** The throughput formula in the words of the specification:
    [recordsProcessed / max(jobReportedDurationSeconds,
    elapsedWallClockSeconds)], where [recordsProcessed] is the input record
    count when the control plane reports zero. *)
Definition spec_records_processed (reported num_records : Z) : Z :=
  if reported =? 0 then num_records else reported.

(** Python's [max(x, y)]: [y] when [y > x], else [x]. *)
Definition float_max (x y : float) : float :=
  if PrimFloat.ltb x y then y else x.

Definition spec_throughput (reported num_records : Z)
    (job_duration_sec elapsed : float) : float :=
  PrimFloat.div (nearest_double (spec_records_processed reported num_records) 1)
                (float_max job_duration_sec elapsed).

(** The numbers that enter the summary, within the range of a double. *)
Definition fits_double (n : Z) : Prop := Z.abs n < overflow_bound.

(** The duration and the record count of a details document, as the
    summary divides them. *)
Definition details_in_range (job_details : JobDetails) : Prop :=
  default 0 (d_duration job_details) < 1000 * overflow_bound /\
  fits_double
    (sumZ (counter read_records <$> default [] (d_vertices job_details))).

(** Every details document the control plane may answer during the poll
    loop is in that range. *)
Definition control_plane_in_range (w : World) : Prop :=
  forall (k : nat) (job_id : string) (job_details : JobDetails),
    (k < tick_budget)%nat ->
    detail_resp (tick_rest (ticks w k)) job_id = Some job_details ->
    details_in_range job_details.

(** ** Scenarios *)

(** The control plane answers but lists nothing. *)
Definition idle_tick : PollTick :=
  mkTick (Some []) (mkRest (Some []) (fun _ => None)).

(** Details of a job with two tasks. *)
Definition two_task_details : JobDetails :=
  mkDetails (Some "insert-into_sink_table") (Some 1000)
    (Some (vertex_of_task <$> [mkTask 10 5 100 50; mkTask 20 0 200 0])).

(** A tick whose listing is [jobs], answered consistently. *)
Definition tick_listing (jobs : list Job) : PollTick :=
  mkTick (Some jobs) (mkRest (Some jobs) (fun _ => Some two_task_details)).

Definition old_A : Job := mkJob "A" "FINISHED".
Definition old_B : Job := mkJob "B" "FINISHED".

(** A run over a cluster that already knows jobs A and B. *)
Definition scenario (c : Cleanup) (cp sub : ProcOutcome)
    (tks : nat -> PollTick) : World :=
  {| cleanup := c;
     write_ok := true;
     docker_cp := cp;
     baseline_jobs := Some [old_A; old_B];
     start_clock := 0%float;
     submission := sub;
     ticks := tks;
     end_clock := 125%float |}.

Definition nothing_to_cancel : Cleanup := mkCleanup (Some []) (fun _ => true).

(** Three RUNNING jobs; the cancel request of the first one fails. *)
Definition three_running : list Job :=
  [mkJob "j1" "RUNNING"; mkJob "j2" "RUNNING"; mkJob "j3" "RUNNING"].

Definition first_cancel_fails : Cleanup :=
  mkCleanup (Some three_running) (fun job_id => negb (String.eqb job_id "j1")).


(** The submission succeeds and no job ever appears. *)
Definition world_job_never_listed : World :=
  scenario nothing_to_cancel (Exited 0) (Exited 0)
           (fun _ => tick_listing [old_A; old_B]).

(** Job C appears and stays RUNNING; the submission reported failure. *)
Definition world_never_terminal : World :=
  scenario nothing_to_cancel (Exited 0) (Exited 1)
           (fun _ => tick_listing [old_A; mkJob "C" "RUNNING"; old_B]).

(** Job C is RUNNING on ticks 0 and 1 and FAILED on tick 2, although the
    submission reported success. *)
Definition world_fails_on_third_tick : World :=
  scenario nothing_to_cancel (Exited 0) (Exited 0)
           (fun i => if (i <? 2)%nat
                     then tick_listing [old_A; mkJob "C" "RUNNING"; old_B]
                     else tick_listing [old_A; mkJob "C" "FAILED"; old_B]).

(** Job C is listed first; from the second tick on a job D, started by
    someone else, is listed before it. *)
Definition world_second_job_overtakes : World :=
  scenario nothing_to_cancel (Exited 0) (Exited 0)
           (fun i => match i with
                     | O => tick_listing [old_A; mkJob "C" "RUNNING"]
                     | _ => tick_listing [old_A; mkJob "D" "FINISHED";
                                          mkJob "C" "RUNNING"]
                     end).

(** [docker cp] exits with status 1. *)
Definition world_copy_fails : World :=
  scenario nothing_to_cancel (Exited 1) (Exited 0) (fun _ => idle_tick).

(** The cleanup meets the failing cancel request. *)
Definition world_cleanup_fails : World :=
  scenario first_cancel_fails (Exited 0) (Exited 0) (fun _ => idle_tick).

(** ** [get_host_ip] (lines 42-50) and [main] (lines 481-570) *)

(** A Python [str] is read as the sequence of its code points, all below
    256.  [str.isspace] on such a code point: TAB to CR, FS to US, the
    space, NEL and the no-break space. *)
Definition is_space (c : Ascii.ascii) : bool :=
  let n := Ascii.N_of_ascii c in
  ((9 <=? n) && (n <=? 13) || (28 <=? n) && (n <=? 32)
   || (n =? 133) || (n =? 160))%N.

Definition is_empty (s : string) : bool :=
  match s with
  | EmptyString => true
  | String _ _ => false
  end.

Fixpoint lstrip (s : string) : string :=
  match s with
  | EmptyString => EmptyString
  | String c s' => if is_space c then lstrip s' else s
  end.

Fixpoint rstrip (s : string) : string :=
  match s with
  | EmptyString => EmptyString
  | String c s' =>
      let r := rstrip s' in
      if is_space c && is_empty r then EmptyString else String c r
  end.

(** [s.strip()]. *)
Definition strip (s : string) : string := rstrip (lstrip s).

(** [s.split()] with no separator: the maximal runs of characters that
    are not whitespace; [word] is the run being read. *)
Fixpoint split_from (word : string) (s : string) : list string :=
  match s with
  | EmptyString => if is_empty word then [] else [word]
  | String c s' =>
      if is_space c
      then (if is_empty word then split_from EmptyString s'
            else word :: split_from EmptyString s')
      else split_from (String.append word (String c EmptyString)) s'
  end.

Definition split (s : string) : list string := split_from EmptyString s.

(** How a call of [main] can end: it returns, or an exception of the
    modelled calls or the IndexError of [split()[0]] leaves it. *)
Inductive top_outcome (A : Type) :=
  | Done (a : A)
  | Uncaught (e : Exn)
  | UncaughtIndexError.
Arguments Done {A} a.
Arguments Uncaught {A} e.
Arguments UncaughtIndexError {A}.

Definition Top (A : Type) : Type := (list Event * top_outcome A)%type.

Definition hostname_cmd : list string := ["hostname"; "-I"].

(** [subprocess.run(["hostname", "-I"], capture_output=True, text=True,
    check=True)] and [result.stdout.strip().split()[0]]. *)
Definition get_host_ip (proc : ProcOutcome) (stdout : string) : Top string :=
  ([EvRun hostname_cmd],
   match proc with
   | SpawnFailed => Uncaught OSError
   | DecodeFailed => Uncaught UnicodeDecodeError
   | Exited returncode =>
       if negb (returncode =? 0) then Uncaught CalledProcessError
       else match split (strip stdout) with
            | first :: _ => Done first
            | [] => UncaughtIndexError
            end
   end).

(** The parsed command line; [argparse] itself is outside the model. *)
Record Args := mkArgs {
  action : string;
  workload : string;
  flink_host : option string;
  records : Z
}.

(** Everything outside the program during one [main]: the [hostname]
    process, the control plane as the cancel action finds it, and the
    world of each benchmark run, numbered in the order of the runs. *)
Record Host := mkHost {
  hostname_proc : ProcOutcome;
  hostname_stdout : string;
  cancel_env : Cleanup;
  run_env : nat -> World
}.

(** Lines 555-566: [for workload in workloads: results.append(run_benchmark(...))]. *)
Fixpoint run_workloads (env : nat -> World) (i : nat) (workloads : list string)
    (num_records : Z) (results : list (option Result))
  : M (list (option Result)) :=
  match workloads with
  | [] => ret results
  | workload :: more =>
      let* result := run_benchmark (env i) workload num_records in
      run_workloads env (S i) more num_records (results ++ [result])
  end.

Definition workloads_of (workload : string) : list string :=
  if String.eqb workload "all"
  then ["identity"; "wordcount"; "window"]
  else [workload].

(** An exception of the modelled calls that nothing in [main] handles. *)
Definition escape {A} (t : list Event) (m : M A) (k : A -> Z) : Top Z :=
  match m with
  | (t', Ret a) => (t ++ t', Done (k a))
  | (t', Raise e) => (t ++ t', Uncaught e)
  end.

(** The value of [main] is the exit status of the program.  The host
    address only selects the URL of the requests, which the scripted
    environment stands for; it is computed before the action is looked
    at, also when [--flink-host] is given. *)
Definition main (h : Host) (args : Args) : Top Z :=
  match get_host_ip (hostname_proc h) (hostname_stdout h) with
  | (t, Done host_ip) =>
      if String.eqb (action args) "cancel" || String.eqb (action args) "cleanup"
      then escape t (cancel_all_jobs (cancel_env h)) (fun _ => 0)
      else if String.eqb (action args) "run"
      then escape t
             (run_workloads (run_env h) 0 (workloads_of (workload args))
                            (records args) [])
             (fun _ => 0)
      else (t, Done 0)
  | (t, Uncaught e) => (t, Uncaught e)
  | (t, UncaughtIndexError) => (t, UncaughtIndexError)
  end.

(** ** More vocabulary *)

(** Every character of the string is whitespace. *)
Fixpoint all_space (s : string) : bool :=
  match s with
  | EmptyString => true
  | String c s' => is_space c && all_space s'
  end.

(** No character of the string is whitespace. *)
Fixpoint no_space (s : string) : bool :=
  match s with
  | EmptyString => true
  | String c s' => negb (is_space c) && no_space s'
  end.

(** The string is empty or begins with whitespace. *)
Definition at_boundary (s : string) : bool :=
  match s with
  | EmptyString => true
  | String c _ => is_space c
  end.

(** The trace holds no throughput report. *)
Fixpoint no_report (t : list Event) : bool :=
  match t with
  | [] => true
  | EvThroughput _ _ _ :: _ => false
  | _ :: t' => no_report t'
  end.

(** The jobs of a listing that are not CANCELED, in listing order. *)
Definition not_canceled (jobs : list Job) : list Job :=
  List.filter (fun j => negb (String.eqb (status_of j) "CANCELED")) jobs.

Definition newline : string := String (Ascii.ascii_of_nat 10) EmptyString.

(** A host whose [hostname -I] prints two addresses and a newline. *)
Definition host_two_addresses (c : Cleanup) (env : nat -> World) : Host :=
  mkHost (Exited 0) (String.append "192.168.1.5 10.0.0.1 " newline) c env.


(** The SQL client cannot be started. *)
Definition world_client_missing : World :=
  scenario nothing_to_cancel (Exited 0) SpawnFailed (fun _ => idle_tick).

(** The SQL client runs, but what it prints is not text. *)
Definition world_client_output_not_text : World :=
  scenario nothing_to_cancel (Exited 0) DecodeFailed (fun _ => idle_tick).

(** The cleanup meets the failing cancel request; job C is listed as
    FINISHED on the first tick, with its details. *)
Definition world_job_finishes : World :=
  scenario first_cancel_fails (Exited 0) (Exited 0)
           (fun _ => tick_listing [old_A; mkJob "C" "FINISHED"; old_B]).

(** A job whose details report a duration of 3 ms. *)
Definition three_ms_job : JobMetrics :=
  mkJM "C" "insert-into_sink_table" "FINISHED" 3 0 0 0 0.

(** Three jobs are listed, one of them CANCELED; the details of the last
    one cannot be fetched. *)
Definition rest_last_details_fail : Rest :=
  mkRest (Some [mkJob "a" "RUNNING"; mkJob "x" "CANCELED";
                mkJob "y" "FINISHED"])
         (fun job_id => if String.eqb job_id "y" then None
                        else Some two_task_details).

(** The same listing with every details request answered. *)
Definition rest_all_details : Rest :=
  mkRest (Some [mkJob "a" "RUNNING"; mkJob "x" "CANCELED";
                mkJob "y" "FINISHED"])
         (fun _ => Some two_task_details).

(** How a computation of [main] ended. *)
Definition outcome_of_top {A} (m : Top A) : top_outcome A := snd m.

(** Three runs of which the second finds [docker cp] failing. *)
Definition env_second_copy_fails (i : nat) : World :=
  match i with
  | 1%nat => world_copy_fails
  | _ => world_job_never_listed
  end.

(** [hostname -I] prints an empty line. *)
Definition host_without_address : Host :=
  mkHost (Exited 0) newline first_cancel_fails (fun _ => world_job_never_listed).

(** How [main] ends when no host address is obtained: the exception of
    the failed [hostname] call, or the IndexError of its blank output. *)
Definition get_host_ip_failure (proc : ProcOutcome) : Top Z :=
  ([EvRun hostname_cmd],
   match proc with
   | SpawnFailed => Uncaught OSError
   | DecodeFailed => Uncaught UnicodeDecodeError
   | Exited returncode =>
       if negb (returncode =? 0) then Uncaught CalledProcessError
       else UncaughtIndexError
   end).

(** ** Laws of the effect layer *)

Lemma bind_Ret {A B} t (a : A) (k : A -> M B) :
  bind (t, Ret a) k = (t ++ trace_of (k a), outcome_of (k a)).
Proof. unfold bind, trace_of, outcome_of. destruct (k a). reflexivity. Qed.

Lemma bind_Raise {A B} t e (k : A -> M B) : bind (t, Raise e) k = (t, Raise e).
Proof. reflexivity. Qed.

Lemma bind_ret_l {A B} (a : A) (k : A -> M B) : bind (ret a) k = k a.
Proof. unfold ret. rewrite bind_Ret. by destruct (k a). Qed.

Lemma bind_emit {B} (e : Event) (k : unit -> M B) :
  bind (emit e) k = (e :: trace_of (k tt), outcome_of (k tt)).
Proof. unfold emit. by rewrite bind_Ret. Qed.

Lemma eta_M {A} (m : M A) : m = (trace_of m, outcome_of m).
Proof. destruct m. reflexivity. Qed.

Lemma try_except_Ret {A} t (a : A) h : try_except (t, Ret a) h = (t, Ret a).
Proof. reflexivity. Qed.

Lemma try_except_Raise {A} t e (h : Exn -> M A) :
  try_except (t, Raise e) h = (t ++ trace_of (h e), outcome_of (h e)).
Proof. unfold try_except, trace_of, outcome_of. destruct (h e). reflexivity. Qed.

Lemma urlopen_Some {A} ev (a : A) : urlopen ev (Some a) = ([ev], Ret a).
Proof. reflexivity. Qed.

Lemma urlopen_None {A} ev : @urlopen A ev None = ([ev], Raise URLError).
Proof. reflexivity. Qed.

Lemma sleep_eq s : sleep s = ([EvSleep s], Ret tt).
Proof. reflexivity. Qed.

(** ** Identity resolution *)

Lemma find_new_job_Some existing jobs j :
  find_new_job existing jobs = Some j <->
  exists l1 l2, jobs = l1 ++ j :: l2 /\
    (forall x, x ∈ l1 -> id_of x ∈ existing) /\ id_of j ∉ existing.
Proof.
  induction jobs as [|job rest IH]; simpl.
  - split; [discriminate|]. intros (l1 & l2 & E & _). by destruct l1.
  - destruct (decide (id_of job ∈ existing)) as [Hin|Hout].
    + rewrite IH. split.
      * intros (l1 & l2 & -> & Hpre & Hj). exists (job :: l1), l2.
        split; [done|]. split; [|done].
        intros x [->|Hx]%elem_of_cons; auto.
      * intros (l1 & l2 & E & Hpre & Hj). destruct l1 as [|y l1]; simpl in E.
        -- injection E as -> ->. contradiction.
        -- injection E as -> ->. exists l1, l2. split; [done|]. split; [|done].
           intros x Hx. apply Hpre. by right.
    + split.
      * intros [= ->]. exists [], rest. split; [done|]. split; [|done].
        intros x Hx. by apply elem_of_nil in Hx.
      * intros (l1 & l2 & E & Hpre & Hj). destruct l1 as [|y l1]; simpl in E.
        -- by injection E as -> ->.
        -- injection E as -> ->. exfalso. apply Hout, Hpre. by left.
Qed.

Lemma find_new_job_None existing jobs :
  find_new_job existing jobs = None <->
  forall x, x ∈ jobs -> id_of x ∈ existing.
Proof.
  induction jobs as [|job rest IH]; simpl.
  - split; [|done]. intros _ x Hx. by apply elem_of_nil in Hx.
  - destruct (decide (id_of job ∈ existing)) as [Hin|Hout].
    + rewrite IH. split.
      * intros H x [->|Hx]%elem_of_cons; auto.
      * intros H x Hx. apply H. by right.
    + split; [discriminate|]. intros H. exfalso. apply Hout, H. by left.
Qed.

(** C1: the resolver returns the first job of the listing, in listing
    order, whose identifier is not in the baseline set, and no job exactly
    when every listed identifier is in the baseline; for baseline {A,B}
    and listing [A,C,B,D] it returns C. *)
Theorem C1_first_job_not_in_baseline :
  (forall (baseline : gset string) (current : list Job) (j : Job),
      find_new_job baseline current = Some j <->
      exists before after, current = before ++ j :: after /\
        (forall x, x ∈ before -> id_of x ∈ baseline) /\
        id_of j ∉ baseline) /\
  (forall (baseline : gset string) (current : list Job),
      find_new_job baseline current = None <->
      forall x, x ∈ current -> id_of x ∈ baseline) /\
  (forall sa sc sb sd : string,
      id_of <$> find_new_job {[ "A"; "B" ]}
        [mkJob "A" sa; mkJob "C" sc; mkJob "B" sb; mkJob "D" sd]
      = Some "C").
Proof.
  split; [|split].
  - intros. apply find_new_job_Some.
  - intros. apply find_new_job_None.
  - intros. vm_compute. reflexivity.
Qed.

Lemma elem_of_add_ids jobs (s : gset string) x :
  x ∈ add_ids jobs s <-> x ∈ s \/ exists j, j ∈ jobs /\ id_of j = x.
Proof.
  unfold add_ids. revert s. induction jobs as [|job rest IH]; intros s; simpl.
  - split; [auto|]. intros [H|(j & Hj & _)]; [done|]. by apply elem_of_nil in Hj.
  - rewrite IH, elem_of_union, elem_of_singleton. split.
    + intros [[->|H]|(j & Hj & E)].
      * right. exists job. split; [by left|done].
      * by left.
      * right. exists j. split; [by right|done].
    + intros [H|(j & [->|Hj]%elem_of_cons & E)].
      * left. by right.
      * left. by left.
      * right. by exists j.
Qed.

(** ** Aggregation *)

Lemma add_vertex_fields jm v :
  jm_id (add_vertex jm v) = jm_id jm /\
  jm_name (add_vertex jm v) = jm_name jm /\
  jm_status (add_vertex jm v) = jm_status jm /\
  duration_ms (add_vertex jm v) = duration_ms jm /\
  records_in (add_vertex jm v) = records_in jm + counter read_records v /\
  records_out (add_vertex jm v) = records_out jm + counter write_records v /\
  bytes_in (add_vertex jm v) = bytes_in jm + counter read_bytes v /\
  bytes_out (add_vertex jm v) = bytes_out jm + counter write_bytes v.
Proof.
  unfold add_vertex, counter. destruct (v_metrics v); simpl;
    repeat split; try reflexivity; lia.
Qed.

Lemma foldl_add_vertex jm0 vertices :
  let jm := foldl add_vertex jm0 vertices in
  jm_id jm = jm_id jm0 /\ jm_name jm = jm_name jm0 /\
  jm_status jm = jm_status jm0 /\ duration_ms jm = duration_ms jm0 /\
  records_in jm = records_in jm0 + sumZ (counter read_records <$> vertices) /\
  records_out jm = records_out jm0 + sumZ (counter write_records <$> vertices) /\
  bytes_in jm = bytes_in jm0 + sumZ (counter read_bytes <$> vertices) /\
  bytes_out jm = bytes_out jm0 + sumZ (counter write_bytes <$> vertices).
Proof.
  revert jm0. induction vertices as [|v vs IH]; intros jm0; cbn [foldl].
  - cbn. repeat split; try reflexivity; lia.
  - destruct (IH (add_vertex jm0 v)) as (E1 & E2 & E3 & E4 & E5 & E6 & E7 & E8).
    destruct (add_vertex_fields jm0 v) as (F1 & F2 & F3 & F4 & F5 & F6 & F7 & F8).
    cbv zeta. rewrite E1, E2, E3, E4, E5, E6, E7, E8.
    rewrite F1, F2, F3, F4, F5, F6, F7, F8.
    rewrite !fmap_cons. unfold sumZ. cbn [foldr].
    repeat split; try reflexivity; lia.
Qed.

Lemma counter_vertex_of_task_in (tasks : list TaskMetrics) :
  counter read_records <$> (vertex_of_task <$> tasks) = recordsIn <$> tasks.
Proof. induction tasks; simpl; [done|]. by f_equal. Qed.

Lemma counter_vertex_of_task_out (tasks : list TaskMetrics) :
  counter write_records <$> (vertex_of_task <$> tasks) = recordsOut <$> tasks.
Proof. induction tasks; simpl; [done|]. by f_equal. Qed.

Lemma counter_vertex_of_task_bin (tasks : list TaskMetrics) :
  counter read_bytes <$> (vertex_of_task <$> tasks) = bytesIn <$> tasks.
Proof. induction tasks; simpl; [done|]. by f_equal. Qed.

Lemma counter_vertex_of_task_bout (tasks : list TaskMetrics) :
  counter write_bytes <$> (vertex_of_task <$> tasks) = bytesOut <$> tasks.
Proof. induction tasks; simpl; [done|]. by f_equal. Qed.

(** C7: the totals [_get_job_metrics] builds for a job are the field-wise
    sums of the per-task counters (a counter missing from a document
    counting as zero), all zero for the empty list, and the tasks
    [{10,5,100,50},{20,0,200,0}] aggregate to {30,5,300,50}. *)
Theorem C7_fieldwise_sums :
  (forall (job : Job) (job_details : JobDetails),
      let jm := job_metrics_of job job_details in
      let vertices := default [] (d_vertices job_details) in
      records_in jm = sumZ (counter read_records <$> vertices) /\
      records_out jm = sumZ (counter write_records <$> vertices) /\
      bytes_in jm = sumZ (counter read_bytes <$> vertices) /\
      bytes_out jm = sumZ (counter write_bytes <$> vertices)) /\
  (forall (job : Job) (name : option string) (duration : option Z)
          (tasks : list TaskMetrics),
      let jm := job_metrics_of job
                  (mkDetails name duration (Some (vertex_of_task <$> tasks))) in
      records_in jm = sumZ (recordsIn <$> tasks) /\
      records_out jm = sumZ (recordsOut <$> tasks) /\
      bytes_in jm = sumZ (bytesIn <$> tasks) /\
      bytes_out jm = sumZ (bytesOut <$> tasks)) /\
  (forall (job : Job) (name : option string) (duration : option Z)
          (vertices : option (list Vertex)),
      vertices = Some [] \/ vertices = None ->
      let jm := job_metrics_of job (mkDetails name duration vertices) in
      (records_in jm, records_out jm, bytes_in jm, bytes_out jm)
      = (0, 0, 0, 0)) /\
  (forall (job : Job) (name : option string) (duration : option Z),
      let jm := job_metrics_of job
                  (mkDetails name duration
                     (Some (vertex_of_task <$>
                              [mkTask 10 5 100 50; mkTask 20 0 200 0]))) in
      (records_in jm, records_out jm, bytes_in jm, bytes_out jm)
      = (30, 5, 300, 50)).
Proof.
  assert (forall job job_details,
      let jm := job_metrics_of job job_details in
      let vertices := default [] (d_vertices job_details) in
      records_in jm = sumZ (counter read_records <$> vertices) /\
      records_out jm = sumZ (counter write_records <$> vertices) /\
      bytes_in jm = sumZ (counter read_bytes <$> vertices) /\
      bytes_out jm = sumZ (counter write_bytes <$> vertices)) as Hgen.
  { intros job job_details jm vertices. subst jm vertices.
    unfold job_metrics_of.
    match goal with |- context [foldl add_vertex ?a ?b] =>
      destruct (foldl_add_vertex a b) as (_ & _ & _ & _ & E1 & E2 & E3 & E4)
    end.
    cbn [records_in records_out bytes_in bytes_out] in E1, E2, E3, E4.
    rewrite E1, E2, E3, E4. repeat split; lia. }
  split; [exact Hgen|]. split; [|split].
  - intros job name duration tasks jm. subst jm.
    destruct (Hgen job (mkDetails name duration
                          (Some (vertex_of_task <$> tasks))))
      as (E1 & E2 & E3 & E4).
    cbn [d_vertices default from_option id] in E1, E2, E3, E4.
    rewrite E1, E2, E3, E4.
    rewrite counter_vertex_of_task_in, counter_vertex_of_task_out,
      counter_vertex_of_task_bin, counter_vertex_of_task_bout.
    done.
  - intros job name duration vertices [-> | ->]; reflexivity.
  - intros. reflexivity.
Qed.

(** ** What [_get_job_metrics] asks for and returns *)

(** With a target the details of at most one job are requested, a job of
    that identifier. *)
Lemma jobs_to_check_target target jobs :
  target <> "" ->
  jobs_to_check (Some target) jobs = [] \/
  exists job, jobs_to_check (Some target) jobs = [job] /\
              job ∈ jobs /\ id_of job = target.
Proof.
  intros Hne.
  assert (truthy (Some target) = true) as Ht.
  { unfold truthy. destruct (String.eqb_spec target ""); done. }
  induction jobs as [|job rest IH]; cbn [jobs_to_check]; [by left|].
  rewrite Ht. unfold is_target.
  destruct (String.eqb_spec (id_of job) target) as [E|E].
  - right. exists job. split; [done|]. split; [by left|done].
  - destruct IH as [->|(j & -> & Hj & Hid)]; [by left|].
    right. exists j. split; [done|]. split; [by right|done].
Qed.

(** ** Cleanup *)

Lemma cancel_running_trace cancel jobs :
  trace_of (cancel_running cancel jobs)
  = EvCancel <$> cancel_requests cancel jobs.
Proof.
  induction jobs as [|job rest IH]; cbn [cancel_running cancel_requests];
    [done|].
  destruct (String.eqb (status_of job) "RUNNING"); [|done].
  destruct (cancel (id_of job)).
  - rewrite urlopen_Some, bind_Ret. cbn [trace_of fst].
    fold (trace_of (cancel_running cancel rest)). by rewrite IH.
  - by rewrite urlopen_None, bind_Raise.
Qed.

Lemma cancel_all_jobs_trace c :
  trace_of (cancel_all_jobs c)
  = EvGetJobs ::
    match cleanup_jobs c with
    | Some jobs => EvCancel <$> cancel_requests (cancel_resp c) jobs
    | None => []
    end.
Proof.
  unfold cancel_all_jobs.
  destruct (cleanup_jobs c) as [jobs|].
  - rewrite urlopen_Some, bind_Ret, <- cancel_running_trace.
    destruct (cancel_running (cancel_resp c) jobs) as [t [u|e]].
    + reflexivity.
    + cbn [trace_of outcome_of fst snd]. rewrite try_except_Raise.
      cbn. by rewrite app_nil_r.
  - by rewrite urlopen_None, bind_Raise, try_except_Raise.
Qed.

Lemma cancel_all_jobs_returns c : outcome_of (cancel_all_jobs c) = Ret tt.
Proof.
  unfold cancel_all_jobs.
  destruct (cleanup_jobs c) as [jobs|].
  - rewrite urlopen_Some, bind_Ret.
    destruct (cancel_running (cancel_resp c) jobs) as [t [[]|e]];
      reflexivity.
  - by rewrite urlopen_None, bind_Raise, try_except_Raise.
Qed.

Lemma cancel_requests_all_ok cancel jobs :
  (forall x, x ∈ running_ids jobs -> cancel x = true) ->
  cancel_requests cancel jobs = running_ids jobs.
Proof.
  unfold running_ids.
  induction jobs as [|job rest IH]; simpl; intros Hok; [done|].
  destruct (String.eqb (status_of job) "RUNNING"); simpl in *.
  - rewrite Hok by (by left). f_equal. apply IH. intros x Hx. apply Hok. by right.
  - by apply IH.
Qed.

Lemma cancel_requests_first_failure cancel jobs before x after :
  running_ids jobs = before ++ x :: after ->
  (forall y, y ∈ before -> cancel y = true) ->
  cancel x = false ->
  cancel_requests cancel jobs = before ++ [x].
Proof.
  unfold running_ids. revert before.
  induction jobs as [|job rest IH]; simpl; intros before E Hok Hx.
  - by destruct before.
  - destruct (String.eqb (status_of job) "RUNNING"); simpl in *.
    + destruct before as [|b before]; simpl in *.
      * injection E as -> _. by rewrite Hx.
      * injection E as -> E. rewrite Hok by (by left). f_equal.
        apply IH; [done| |done]. intros y Hy. apply Hok. by right.
    + by apply IH.
Qed.

(** ** Traces *)

Lemma naps_app t1 t2 : naps (t1 ++ t2) = (naps t1 + naps t2)%nat.
Proof. induction t1 as [|[] t1 IH]; simpl; lia. Qed.

Lemma slept_app t1 t2 : slept (t1 ++ t2) = slept t1 + slept t2.
Proof. induction t1 as [|[] t1 IH]; simpl; lia. Qed.

Lemma listings_app t1 t2 : listings (t1 ++ t2) = (listings t1 + listings t2)%nat.
Proof. induction t1 as [|[] t1 IH]; simpl; lia. Qed.

(** ** [_get_job_metrics] never raises and never sleeps *)

Lemma collect_metrics_quiet rest to_check acc :
  naps (trace_of (collect_metrics rest to_check acc)) = O /\
  slept (trace_of (collect_metrics rest to_check acc)) = 0.
Proof.
  revert acc. induction to_check as [|job more IH]; intros acc;
    cbn [collect_metrics]; [done|].
  destruct (detail_resp rest (id_of job)) as [det|].
  - rewrite urlopen_Some, bind_Ret. cbn [trace_of fst app naps slept].
    apply IH.
  - by rewrite urlopen_None, bind_Raise.
Qed.

Lemma get_job_metrics_returns rest target :
  exists m, outcome_of (_get_job_metrics rest target) = Ret m.
Proof.
  unfold _get_job_metrics.
  destruct (jobs_resp rest) as [jobs|].
  - rewrite urlopen_Some, bind_Ret.
    destruct (collect_metrics rest (jobs_to_check target jobs) [])
      as [t [l|e]].
    + rewrite bind_Ret. by eexists.
    + rewrite bind_Raise. cbn [trace_of outcome_of fst snd].
      rewrite try_except_Raise. by eexists.
  - rewrite urlopen_None, bind_Raise, try_except_Raise. by eexists.
Qed.

Lemma get_job_metrics_quiet rest target :
  naps (trace_of (_get_job_metrics rest target)) = O /\
  slept (trace_of (_get_job_metrics rest target)) = 0.
Proof.
  unfold _get_job_metrics.
  destruct (jobs_resp rest) as [jobs|].
  - rewrite urlopen_Some, bind_Ret.
    pose proof (collect_metrics_quiet rest (jobs_to_check target jobs) [])
      as [Hn Hs].
    destruct (collect_metrics rest (jobs_to_check target jobs) [])
      as [t [l|e]]; cbn [trace_of fst] in Hn, Hs.
    + rewrite bind_Ret. cbn [trace_of outcome_of fst snd ret].
      rewrite try_except_Ret. cbn [trace_of fst app naps slept].
      by rewrite app_nil_r.
    + rewrite bind_Raise. cbn [trace_of outcome_of fst snd].
      rewrite try_except_Raise. cbn [trace_of fst app naps slept ret].
      by rewrite app_nil_r.
  - rewrite urlopen_None, bind_Raise, try_except_Raise. done.
Qed.

(** The targeted call, when both exchanges succeed: one entry, the totals
    of the target job. *)
Lemma get_job_metrics_of_target rest target jobs job job_details :
  jobs_resp rest = Some jobs ->
  jobs_to_check (Some target) jobs = [job] ->
  detail_resp rest (id_of job) = Some job_details ->
  _get_job_metrics rest (Some target)
  = ([EvGetJobs; EvGetJob (id_of job)],
     Ret (Some [job_metrics_of job job_details])).
Proof.
  intros Hjobs Hcheck Hdet. unfold _get_job_metrics.
  rewrite Hjobs, urlopen_Some, bind_Ret, Hcheck.
  cbn [collect_metrics]. rewrite Hdet, urlopen_Some, bind_Ret.
  cbn [collect_metrics trace_of outcome_of fst snd ret app].
  by rewrite bind_Ret.
Qed.

(** The target job is not listed (it was purged), or an exchange fails:
    an empty ["jobs"] list, or the empty dictionary. *)
Lemma get_job_metrics_degraded rest target :
  (forall jobs, jobs_resp rest = Some jobs ->
                jobs_to_check (Some target) jobs = []) ->
  outcome_of (_get_job_metrics rest (Some target)) = Ret (Some []) \/
  outcome_of (_get_job_metrics rest (Some target)) = Ret None.
Proof.
  intros Hnone. unfold _get_job_metrics.
  destruct (jobs_resp rest) as [jobs|].
  - rewrite urlopen_Some, bind_Ret, (Hnone jobs eq_refl).
    cbn [collect_metrics]. left. reflexivity.
  - right. by rewrite urlopen_None, bind_Raise, try_except_Raise.
Qed.

(** ** One tick of the poll loop *)

Section PollLoop.

(** The baseline and the answers of the control plane, tick by tick. *)
Variable existing : gset string.
Variable tks : nat -> PollTick.

(** The variables after a tick and whether the loop is left, as a
    function of what the tick observes and of the metrics it fetches. *)
Lemma poll_tick_observed tk st j :
  observed existing tk = Some j ->
  exists t m,
    _get_job_metrics (tick_rest tk) (Some (id_of j)) = (t, Ret m) /\
    poll_tick existing tk st =
      (EvSleep poll_interval :: EvGetJobs :: t,
       Ret (if is_terminal (status_of j)
            then ({| job_id := Some (id_of j);
                     final_status := status_of j;
                     final_metrics := m |}, Break)
            else ({| job_id := Some (id_of j);
                     final_status := final_status st;
                     final_metrics := final_metrics st |}, Continue))).
Proof.
  unfold observed, poll_tick. intros Hobs.
  destruct (poll_jobs tk) as [jobs|]; [|discriminate].
  destruct (get_job_metrics_returns (tick_rest tk) (Some (id_of j)))
    as [m Hm].
  destruct (_get_job_metrics (tick_rest tk) (Some (id_of j)))
    as [t o] eqn:E. cbn [outcome_of snd] in Hm. subst o.
  exists t, m. split; [done|].
  rewrite sleep_eq, bind_Ret, urlopen_Some, bind_Ret, Hobs, E, bind_Ret.
  destruct (is_terminal (status_of j));
    cbn [trace_of outcome_of fst snd ret]; rewrite try_except_Ret;
    cbn [trace_of outcome_of fst snd app]; by rewrite app_nil_r.
Qed.

Lemma poll_tick_unobserved tk st :
  observed existing tk = None ->
  poll_tick existing tk st
  = ([EvSleep poll_interval; EvGetJobs], Ret (st, Continue)).
Proof.
  unfold observed, poll_tick. intros Hobs.
  destruct (poll_jobs tk) as [jobs|].
  - by rewrite sleep_eq, bind_Ret, urlopen_Some, bind_Ret, Hobs.
  - by rewrite sleep_eq, bind_Ret, urlopen_None, bind_Raise, try_except_Raise.
Qed.

Lemma poll_tick_nonterminal tk st :
  terminal_seen existing tk = false ->
  exists t st',
    poll_tick existing tk st
    = (EvSleep poll_interval :: EvGetJobs :: t, Ret (st', Continue)) /\
    naps t = O /\ slept t = 0 /\
    final_status st' = final_status st /\
    final_metrics st' = final_metrics st /\
    job_id st' = match observed existing tk with
                 | Some j => Some (id_of j)
                 | None => job_id st
                 end.
Proof.
  unfold terminal_seen. intros Hterm.
  destruct (observed existing tk) as [j|] eqn:Hobs.
  - destruct (poll_tick_observed tk st j Hobs) as (t & m & Hm & ->).
    rewrite Hterm. exists t. eexists. split; [reflexivity|].
    pose proof (get_job_metrics_quiet (tick_rest tk) (Some (id_of j))) as Hq.
    rewrite Hm in Hq. cbn [trace_of fst] in Hq. destruct Hq. done.
  - rewrite (poll_tick_unobserved tk st Hobs).
    exists [], st. done.
Qed.


(** Every tick sleeps, asks for the listing and returns. *)
Lemma poll_tick_returns tk st :
  exists t st' ctl,
    poll_tick existing tk st
    = (EvSleep poll_interval :: EvGetJobs :: t, Ret (st', ctl)) /\
    naps t = O.
Proof.
  destruct (observed existing tk) as [j|] eqn:Hobs.
  - destruct (poll_tick_observed tk st j Hobs) as (t & m & Hm & ->).
    pose proof (get_job_metrics_quiet (tick_rest tk) (Some (id_of j)))
      as [Hq _].
    rewrite Hm in Hq.
    destruct (is_terminal (status_of j)); by do 3 eexists.
  - rewrite (poll_tick_unobserved tk st Hobs). by exists [], st, Continue.
Qed.

(** ** The poll loop *)

Lemma poll_loop_S i n st :
  poll_loop existing tks i (S n) st
  = (let* step := poll_tick existing (tks i) st in
     let '(st', ctl) := step in
     match ctl with
     | Break => ret st'
     | Continue => poll_loop existing tks (S i) n st'
     end).
Proof. reflexivity. Qed.

(** After a tick that continues, name the trace and the outcome of the
    rest of the loop again. *)
Ltac expose_rest :=
  cbn [trace_of outcome_of fst snd];
  match goal with
  | |- context [poll_loop ?e ?t ?i ?n ?s] =>
      fold (trace_of (poll_loop e t i n s));
      fold (outcome_of (poll_loop e t i n s))
  end.

(** No tick of the range shows a terminal status: the loop uses up its
    whole budget, sleeping once per tick, and leaves status and metrics
    as they were. *)
Lemma poll_loop_no_terminal n :
  forall i st,
    (forall k, (i <= k < i + n)%nat -> terminal_seen existing (tks k) = false) ->
    exists st',
      outcome_of (poll_loop existing tks i n st) = Ret st' /\
      final_status st' = final_status st /\
      final_metrics st' = final_metrics st /\
      naps (trace_of (poll_loop existing tks i n st)) = n /\
      slept (trace_of (poll_loop existing tks i n st))
        = poll_interval * Z.of_nat n /\
      (n <= listings (trace_of (poll_loop existing tks i n st)))%nat.
Proof.
  induction n as [|n IH]; intros i st Hno; cbn [poll_loop].
  - exists st. cbn. repeat split; lia.
  - destruct (poll_tick_nonterminal (tks i) st) as
      (t & st1 & -> & Hn & Hs & Hfs & Hfm & _); [apply Hno; lia|].
    rewrite bind_Ret.
    destruct (IH (S i) st1) as (st' & Ho & Hfs' & Hfm' & Hn' & Hs' & Hl');
      [intros k Hk; apply Hno; lia|].
    exists st'. expose_rest.
    split; [done|]. split; [congruence|]. split; [congruence|].
    cbn [app naps slept listings].
    rewrite naps_app, slept_app, listings_app, Hn, Hs, Hn', Hs'.
    repeat split; lia.
Qed.

(** No tick of the range resolves a job: nothing but sleeping and
    listing happens and the variables are untouched. *)
Lemma poll_loop_unresolved n :
  forall i st,
    (forall k, (i <= k < i + n)%nat -> observed existing (tks k) = None) ->
    poll_loop existing tks i n st
    = (mjoin (replicate n [EvSleep poll_interval; EvGetJobs]), Ret st).
Proof.
  induction n as [|n IH]; intros i st Hno; cbn [poll_loop]; [done|].
  rewrite (poll_tick_unobserved (tks i) st) by (apply Hno; lia).
  rewrite bind_Ret, IH by (intros k Hk; apply Hno; lia).
  reflexivity.
Qed.


(** Whatever the control plane answers, the loop ends without raising and
    within its budget of ticks. *)
Lemma poll_loop_returns n :
  forall i st,
    exists st', outcome_of (poll_loop existing tks i n st) = Ret st' /\
      (naps (trace_of (poll_loop existing tks i n st)) <= n)%nat.
Proof.
  induction n as [|n IH]; intros i st.
  - exists st. cbn. split; [done|lia].
  - rewrite poll_loop_S.
    destruct (poll_tick_returns (tks i) st)
      as (t & st1 & ctl & -> & Ht).
    rewrite bind_Ret. destruct ctl.
    + destruct (IH (S i) st1) as (st' & Ho & Hn). exists st'.
      expose_rest.
      split; [done|]. cbn [app naps]. rewrite naps_app. lia.
    + exists st1. cbn [trace_of outcome_of fst snd ret app naps].
      split; [done|]. rewrite app_nil_r. lia.
Qed.

End PollLoop.

(** ** [_run_sql_job] *)

Lemma capture_baseline_eq listing :
  capture_baseline listing = ([EvGetJobs], Ret (existing_ids_of listing)).
Proof.
  unfold capture_baseline. destruct listing as [jobs|].
  - by rewrite urlopen_Some, bind_Ret.
  - by rewrite urlopen_None, bind_Raise, try_except_Raise.
Qed.

Lemma run_sql_job_eq w job_name returncode :
  write_ok w = true ->
  docker_cp w = Exited 0 ->
  submission w = Exited returncode ->
  exists st,
    outcome_of (monitor w) = Ret st /\
    _run_sql_job w job_name =
      (prologue job_name ++ trace_of (monitor w),
       Ret {| res_job_name := job_name;
              res_job_id := job_id st;
              res_status := apply_fallback (final_status st) returncode;
              res_elapsed_sec := PrimFloat.sub (end_clock w) (start_clock w);
              res_metrics := final_metrics st |}).
Proof.
  intros Hw Hcp Hsub.
  destruct (poll_loop_returns (existing_ids_of (baseline_jobs w)) (ticks w)
              tick_budget 0 initial_locals) as (st & Ho & _).
  exists st. split; [exact Ho|].
  unfold _run_sql_job, write_file, run.
  rewrite Hw, Hcp, Hsub. cbn [andb negb Z.eqb].
  rewrite bind_emit. cbn [trace_of outcome_of fst snd ret].
  rewrite bind_Ret, bind_emit. cbn [trace_of outcome_of fst snd ret].
  rewrite bind_Ret, capture_baseline_eq, bind_Ret, bind_emit.
  cbn [trace_of outcome_of fst snd ret]. rewrite bind_Ret.
  fold (monitor w). unfold monitor in Ho. fold (monitor w) in Ho.
  destruct (monitor w) as [t o]. cbn [outcome_of snd] in Ho. subst o.
  rewrite bind_Ret. cbn [trace_of outcome_of fst snd ret app].
  by rewrite !app_nil_r.
Qed.

(** ** Terminal statuses and the fallback *)

Lemma is_terminal_spec s :
  is_terminal s = true <-> s = "FINISHED" \/ s = "FAILED" \/ s = "CANCELED".
Proof.
  unfold is_terminal. cbn [existsb].
  rewrite !orb_true_iff, !String.eqb_eq. intuition discriminate.
Qed.

Lemma apply_fallback_terminal s returncode :
  is_terminal s = true -> apply_fallback s returncode = s.
Proof.
  intros [-> | [-> | ->]]%is_terminal_spec; reflexivity.
Qed.

Lemma apply_fallback_unknown returncode :
  apply_fallback "UNKNOWN" returncode
  = if returncode =? 0 then "FINISHED" else "UNKNOWN".
Proof. reflexivity. Qed.

Lemma unresolved_not_terminal existing tk :
  observed existing tk = None -> terminal_seen existing tk = false.
Proof. unfold terminal_seen. by intros ->. Qed.

(** ** Results of a run *)

(** C5: when no job identifier is ever resolved during the poll loop, or
    the loop uses up its ticks without seeing a terminal status, and the
    submission exited with status zero, the result has status FINISHED
    and empty metrics. *)
Theorem C5_fallback_finished (w : World) (job_name : string) :
  write_ok w = true ->
  docker_cp w = Exited 0 ->
  submission w = Exited 0 ->
  (forall k, (k < tick_budget)%nat ->
             observed (existing_ids_of (baseline_jobs w)) (ticks w k) = None)
  \/ (forall k, (k < tick_budget)%nat ->
             terminal_seen (existing_ids_of (baseline_jobs w)) (ticks w k)
             = false) ->
  exists r,
    outcome_of (_run_sql_job w job_name) = Ret r /\
    res_status r = "FINISHED" /\
    res_metrics r = None.
Proof.
  intros Hw Hcp Hsub Hnever.
  assert (forall k, (0 <= k < 0 + tick_budget)%nat ->
            terminal_seen (existing_ids_of (baseline_jobs w)) (ticks w k)
            = false) as Hno.
  { intros k Hk. destruct Hnever as [H|H].
    - apply unresolved_not_terminal, H. lia.
    - apply H. lia. }
  destruct (run_sql_job_eq w job_name 0 Hw Hcp Hsub) as (st & Hst & ->).
  destruct (poll_loop_no_terminal _ _ _ _ initial_locals Hno)
    as (st' & Hst' & Hfs & Hfm & _).
  unfold monitor in Hst. rewrite Hst in Hst'. injection Hst' as <-.
  eexists. split; [reflexivity|]. cbn [res_status res_metrics].
  rewrite Hfs, Hfm. split; reflexivity.
Qed.

Lemma C5_fallback_finished_witness :
  exists r,
    outcome_of (_run_sql_job world_job_never_listed "identity") = Ret r /\
    res_status r = "FINISHED" /\
    res_metrics r = None.
Proof.
  apply (C5_fallback_finished world_job_never_listed "identity");
    [reflexivity | reflexivity | reflexivity |].
  left. intros k _. vm_compute. reflexivity.
Defined.

(** C6: when the monitored job never shows a terminal status, the poll
    loop runs exactly [max_wait // poll_interval] = 60 ticks, sleeping
    [poll_interval] = 2 before each, 120 = [max_wait] in all, and ends;
    without the fallback (nonzero exit of the submission) the status of
    the result is UNKNOWN. *)
Theorem C6_timeout_after_max_wait (w : World) (job_name : string)
    (returncode : Z) :
  write_ok w = true ->
  docker_cp w = Exited 0 ->
  submission w = Exited returncode ->
  (forall k, (k < tick_budget)%nat ->
             terminal_seen (existing_ids_of (baseline_jobs w)) (ticks w k)
             = false) ->
  tick_budget = 60%nat /\
  naps (trace_of (monitor w)) = tick_budget /\
  slept (trace_of (monitor w)) = max_wait /\
  exists r,
    outcome_of (_run_sql_job w job_name) = Ret r /\
    slept (trace_of (_run_sql_job w job_name)) = max_wait /\
    (returncode <> 0 -> res_status r = "UNKNOWN").
Proof.
  intros Hw Hcp Hsub Hnever.
  assert (forall k, (0 <= k < 0 + tick_budget)%nat ->
            terminal_seen (existing_ids_of (baseline_jobs w)) (ticks w k)
            = false) as Hno by (intros k Hk; apply Hnever; lia).
  destruct (run_sql_job_eq w job_name returncode Hw Hcp Hsub)
    as (st & Hst & ->).
  destruct (poll_loop_no_terminal _ _ _ _ initial_locals Hno)
    as (st' & Hst' & Hfs & Hfm & Hn & Hs & _).
  fold (monitor w) in Hst', Hn, Hs.
  rewrite Hst in Hst'. injection Hst' as <-.
  split; [reflexivity|]. split; [exact Hn|]. split; [rewrite Hs; reflexivity|].
  eexists. split; [reflexivity|]. cbn [trace_of fst res_status].
  split.
  - rewrite slept_app, Hs. reflexivity.
  - intros Hrc. rewrite Hfs. cbn [initial_locals final_status].
    rewrite apply_fallback_unknown.
    destruct (Z.eqb_spec returncode 0); [contradiction|reflexivity].
Qed.

Lemma C6_timeout_after_max_wait_witness :
  tick_budget = 60%nat /\
  naps (trace_of (monitor world_never_terminal)) = tick_budget /\
  slept (trace_of (monitor world_never_terminal)) = max_wait /\
  exists r,
    outcome_of (_run_sql_job world_never_terminal "wordcount") = Ret r /\
    slept (trace_of (_run_sql_job world_never_terminal "wordcount"))
      = max_wait /\
    (1 <> 0 -> res_status r = "UNKNOWN").
Proof.
  apply (C6_timeout_after_max_wait world_never_terminal "wordcount" 1);
    [reflexivity | reflexivity | reflexivity |].
  intros k _. vm_compute. reflexivity.
Defined.






(** C9, as stated, fails: tick 0 resolves job C; on tick 1 the listing
    shows job D before C, and the run ends with D as its job. *)
Lemma C9_counterexample :
  let w := world_second_job_overtakes in
  let existing := existing_ids_of (baseline_jobs w) in
  (exists st1,
      outcome_of (poll_loop existing (ticks w) 0 1 initial_locals) = Ret st1 /\
      job_id st1 = Some "C") /\
  (exists st2,
      outcome_of (poll_loop existing (ticks w) 0 2 initial_locals) = Ret st2 /\
      job_id st2 = Some "D") /\
  (exists r,
      outcome_of (_run_sql_job w "identity") = Ret r /\
      res_job_id r = Some "D").
Proof.
  split; [|split]; eexists; (split; [vm_compute; reflexivity|reflexivity]).
Qed.

(** C9, amended: the resolver runs on every tick, whether or not a job
    identifier is already known.  Each tick requests the listing; when
    the listing holds a job outside the baseline, the identifier becomes
    that of the first such job, replacing an earlier one; when the
    listing fails or holds no such job, the identifier is unchanged. *)
Theorem C9_job_id_follows_each_listing :
  forall (existing : gset string) (tk : PollTick) (st : Locals),
  exists t st' ctl,
    poll_tick existing tk st
    = (EvSleep poll_interval :: EvGetJobs :: t, Ret (st', ctl)) /\
    job_id st' = match observed existing tk with
                 | Some j => Some (id_of j)
                 | None => job_id st
                 end.
Proof.
  intros existing tk st.
  destruct (observed existing tk) as [j|] eqn:Hobs.
  - destruct (poll_tick_observed existing tk st j Hobs) as (t & m & _ & ->).
    destruct (is_terminal (status_of j)); by do 3 eexists.
  - rewrite (poll_tick_unobserved existing tk st Hobs).
    by exists [], st, Continue.
Qed.

(** After a tick that continues, name the trace and the outcome of the
    rest of the loop. *)
Ltac name_rest :=
  cbn [trace_of outcome_of fst snd];
  match goal with
  | |- context [poll_loop ?e ?t ?i ?n ?s] =>
      fold (trace_of (poll_loop e t i n s));
      fold (outcome_of (poll_loop e t i n s))
  end.

(** ** What the poll loop leaves in its variables *)

Lemma observed_listed existing tk j :
  observed existing tk = Some j ->
  exists jobs, poll_jobs tk = Some jobs /\ j ∈ jobs /\ id_of j ∉ existing.
Proof.
  unfold observed. destruct (poll_jobs tk) as [jobs|]; [|discriminate].
  intros (before & after & -> & _ & Hnew)%find_new_job_Some.
  exists (before ++ j :: after). split; [done|]. split; [|done].
  apply elem_of_app. right. by left.
Qed.

(** A call of [_get_job_metrics] asks for the listing once. *)
Lemma collect_metrics_no_listing rest to_check acc :
  listings (trace_of (collect_metrics rest to_check acc)) = O.
Proof.
  revert acc. induction to_check as [|job more IH]; intros acc;
    cbn [collect_metrics]; [done|].
  destruct (detail_resp rest (id_of job)) as [det|].
  - rewrite urlopen_Some, bind_Ret. cbn [trace_of fst app listings].
    apply IH.
  - by rewrite urlopen_None, bind_Raise.
Qed.

Lemma get_job_metrics_one_listing rest target :
  (listings (trace_of (_get_job_metrics rest target)) <= 1)%nat.
Proof.
  unfold _get_job_metrics.
  destruct (jobs_resp rest) as [jobs|].
  - rewrite urlopen_Some, bind_Ret.
    pose proof (collect_metrics_no_listing rest
                  (jobs_to_check target jobs) []) as Hl.
    destruct (collect_metrics rest (jobs_to_check target jobs) [])
      as [t [l|e]]; cbn [trace_of fst] in Hl.
    + rewrite bind_Ret. cbn [trace_of outcome_of fst snd ret].
      rewrite try_except_Ret. cbn [trace_of fst app listings].
      rewrite app_nil_r, Hl. lia.
    + rewrite bind_Raise. cbn [trace_of outcome_of fst snd].
      rewrite try_except_Raise. cbn [trace_of fst app listings ret].
      rewrite app_nil_r, Hl. lia.
  - rewrite urlopen_None, bind_Raise, try_except_Raise. cbn. lia.
Qed.

Section LoopResult.

Variable existing : gset string.
Variable tks : nat -> PollTick.

(** Either no tick of the range showed a terminal status, and status and
    metrics are untouched while the identifier is the old one or that of
    a job some tick resolved; or some tick did, and the variables are
    what that tick assigned. *)
Lemma poll_loop_result n :
  forall i st,
  exists st',
    outcome_of (poll_loop existing tks i n st) = Ret st' /\
    ((final_status st' = final_status st /\
      final_metrics st' = final_metrics st /\
      (job_id st' = job_id st \/
       exists k j, (i <= k < i + n)%nat /\
                   observed existing (tks k) = Some j /\
                   job_id st' = Some (id_of j)))
     \/
     (exists k j m,
         (i <= k < i + n)%nat /\
         observed existing (tks k) = Some j /\
         is_terminal (status_of j) = true /\
         outcome_of (_get_job_metrics (tick_rest (tks k)) (Some (id_of j)))
           = Ret m /\
         st' = {| job_id := Some (id_of j);
                  final_status := status_of j;
                  final_metrics := m |})).
Proof.
  induction n as [|n IH]; intros i st.
  - exists st. split; [reflexivity|]. left. auto.
  - rewrite poll_loop_S.
    destruct (observed existing (tks i)) as [j|] eqn:Hobs.
    + destruct (poll_tick_observed existing (tks i) st j Hobs)
        as (t & m & Hm & ->).
      rewrite bind_Ret.
      destruct (is_terminal (status_of j)) eqn:Hterm.
      * eexists. split; [reflexivity|]. right. exists i, j, m.
        split; [lia|]. split; [done|]. split; [done|].
        split; [by rewrite Hm|reflexivity].
      * destruct (IH (S i) {| job_id := Some (id_of j);
                              final_status := final_status st;
                              final_metrics := final_metrics st |})
          as (st' & Ho & Hcases).
        exists st'. name_rest. split; [exact Ho|].
        destruct Hcases as [(Hfs & Hfm & Hid) | (k & j' & m' & Hk & H)].
        -- left. split; [exact Hfs|]. split; [exact Hfm|]. right.
           destruct Hid as [Hid | (k & j' & Hk & Hobs' & Hid)].
           ++ exists i, j. split; [lia|]. split; [done|]. exact Hid.
           ++ exists k, j'. split; [lia|]. split; done.
        -- right. exists k, j', m'. split; [lia|]. exact H.
    + rewrite (poll_tick_unobserved existing (tks i) st Hobs), bind_Ret.
      destruct (IH (S i) st) as (st' & Ho & Hcases).
      exists st'. name_rest. split; [exact Ho|].
      destruct Hcases as [(Hfs & Hfm & Hid) | (k & j' & m' & Hk & H)].
      * left. split; [exact Hfs|]. split; [exact Hfm|].
        destruct Hid as [Hid | (k & j' & Hk & Hobs' & Hid)]; [by left|].
        right. exists k, j'. split; [lia|]. split; done.
      * right. exists k, j', m'. split; [lia|]. exact H.
Qed.

(** The sleeps of the loop: at most one per tick of the budget, each of
    [poll_interval]. *)
Lemma poll_loop_sleeps n :
  forall i st,
    (naps (trace_of (poll_loop existing tks i n st)) <= n)%nat /\
    slept (trace_of (poll_loop existing tks i n st))
    = poll_interval * Z.of_nat (naps (trace_of (poll_loop existing tks i n st))) /\
    (listings (trace_of (poll_loop existing tks i n st)) <= 2 * n)%nat.
Proof.
  induction n as [|n IH]; intros i st.
  - cbn. repeat split; lia.
  - rewrite poll_loop_S.
    assert (exists t st1 ctl,
               poll_tick existing (tks i) st
               = (EvSleep poll_interval :: EvGetJobs :: t, Ret (st1, ctl)) /\
               naps t = O /\ slept t = 0 /\ (listings t <= 1)%nat)
      as (t & st1 & ctl & -> & Hn & Hs & Hl).
    { destruct (observed existing (tks i)) as [j|] eqn:Hobs.
      - destruct (poll_tick_observed existing (tks i) st j Hobs)
          as (t & m & Hm & ->).
        pose proof (get_job_metrics_quiet (tick_rest (tks i))
                      (Some (id_of j))) as [Hq1 Hq2].
        pose proof (get_job_metrics_one_listing (tick_rest (tks i))
                      (Some (id_of j))) as Hq3.
        rewrite Hm in Hq1, Hq2, Hq3. cbn [trace_of fst] in Hq1, Hq2, Hq3.
        destruct (is_terminal (status_of j)); by do 3 eexists.
      - rewrite (poll_tick_unobserved existing (tks i) st Hobs).
        exists [], st, Continue. cbn. repeat split; lia. }
    rewrite bind_Ret. destruct ctl.
    + destruct (IH (S i) st1) as (Hn' & Hs' & Hl'). name_rest.
      cbn [app naps slept listings].
      rewrite naps_app, slept_app, listings_app, Hn, Hs, Hs'.
      repeat split; lia.
    + cbn [trace_of outcome_of fst snd ret app naps slept listings].
      rewrite app_nil_r, Hn, Hs. repeat split; lia.
Qed.

End LoopResult.

(** ** Entries of the metrics *)

Lemma job_metrics_of_header job job_details :
  jm_id (job_metrics_of job job_details) = id_of job /\
  jm_status (job_metrics_of job job_details) = status_of job /\
  jm_name (job_metrics_of job job_details)
    = default "unknown" (d_name job_details) /\
  duration_ms (job_metrics_of job job_details)
    = default 0 (d_duration job_details).
Proof.
  unfold job_metrics_of.
  match goal with |- context [foldl add_vertex ?a ?b] =>
    destruct (foldl_add_vertex a b) as (E1 & E2 & E3 & E4 & _)
  end.
  cbv zeta in E1, E2, E3, E4. rewrite E1, E2, E3, E4. done.
Qed.

(** A call with a target returns at most one entry, for that target. *)
Lemma get_job_metrics_target_entries rest target l :
  target <> "" ->
  outcome_of (_get_job_metrics rest (Some target)) = Ret (Some l) ->
  (length l <= 1)%nat /\ forall jm, jm ∈ l -> jm_id jm = target.
Proof.
  intros Hne. unfold _get_job_metrics.
  destruct (jobs_resp rest) as [jobs|].
  - rewrite urlopen_Some, bind_Ret.
    destruct (jobs_to_check_target target jobs Hne)
      as [-> | (job & -> & _ & Hid)]; cbn [collect_metrics].
    + unfold ret. rewrite bind_Ret. cbn. intros [= <-]. split; [cbn; lia|].
      intros jm Hjm. by apply elem_of_nil in Hjm.
    + destruct (detail_resp rest (id_of job)) as [det|].
      * rewrite urlopen_Some, bind_Ret. cbn [collect_metrics].
        unfold ret. cbn [trace_of outcome_of fst snd app].
        rewrite bind_Ret. cbn [trace_of outcome_of fst snd app].
        rewrite try_except_Ret. cbn [outcome_of snd]. intros [= <-].
        split; [cbn [length]; lia|].
        intros jm ->%list_elem_of_singleton.
        destruct (job_metrics_of_header job det) as [-> _]. exact Hid.
      * rewrite urlopen_None, !bind_Raise. cbn [trace_of outcome_of fst snd].
        rewrite try_except_Raise. cbn. discriminate.
  - rewrite urlopen_None, bind_Raise, try_except_Raise. cbn. discriminate.
Qed.

(** ** [run_benchmark] *)

(** For a known workload the run is the cleanup, the settle interval,
    [_run_sql_job] under the workload's name and the summary. *)
Lemma run_benchmark_known w workload num_records :
  known_workload workload ->
  run_benchmark w workload num_records
  = (let* _ := cancel_all_jobs (cleanup w) in
     let* _ := sleep 2 in
     let* result := _run_sql_job w workload in
     let* _ := print_summary result num_records in
     ret (Some result)).
Proof. intros [-> | [-> | ->]]; reflexivity. Qed.

(** A call of the SQL client that raises ends the run after the prologue. *)
Lemma run_sql_job_client_raises w job_name e :
  write_ok w = true ->
  docker_cp w = Exited 0 ->
  submission w = SpawnFailed /\ e = OSError \/
  submission w = DecodeFailed /\ e = UnicodeDecodeError ->
  _run_sql_job w job_name = (prologue job_name, Raise e).
Proof.
  intros Hw Hcp Hsub. unfold _run_sql_job, write_file, run.
  rewrite Hw, Hcp. cbn [andb negb Z.eqb].
  rewrite bind_emit. cbn [trace_of outcome_of fst snd ret].
  rewrite bind_Ret, bind_emit. cbn [trace_of outcome_of fst snd ret].
  rewrite bind_Ret, capture_baseline_eq, bind_Ret, bind_emit.
  destruct Hsub as [[-> ->] | [-> ->]];
    cbn [trace_of outcome_of fst snd raise]; rewrite bind_Raise;
    reflexivity.
Qed.

Lemma run_sql_job_prologue w job_name :
  write_ok w = true ->
  docker_cp w = Exited 0 ->
  exists t, trace_of (_run_sql_job w job_name) = prologue job_name ++ t.
Proof.
  intros Hw Hcp. destruct (submission w) as [returncode| |] eqn:Hsub.
  - destruct (run_sql_job_eq w job_name returncode Hw Hcp Hsub)
      as (st & _ & ->). by eexists.
  - exists []. rewrite app_nil_r.
    by rewrite (run_sql_job_client_raises w job_name OSError Hw Hcp)
      by (by left).
  - exists []. rewrite app_nil_r.
    by rewrite (run_sql_job_client_raises w job_name UnicodeDecodeError
                  Hw Hcp) by (by right).
Qed.

Lemma cancel_all_jobs_eq c :
  cancel_all_jobs c = (trace_of (cancel_all_jobs c), Ret tt).
Proof.
  pose proof (cancel_all_jobs_returns c) as H.
  destruct (cancel_all_jobs c) as [t o]. cbn in H. by subst o.
Qed.

(** ** The summary *)

Lemma overflow_bound_positive : 0 < overflow_bound.
Proof. vm_compute. reflexivity. Qed.

Lemma duration_sec_of_positive duration_ms elapsed :
  0 < duration_ms < 1000 * overflow_bound ->
  duration_sec_of duration_ms elapsed = ret (nearest_double duration_ms 1000).
Proof.
  intros [Hpos Hlt]. unfold duration_sec_of, int_truediv.
  destruct (Z.ltb_spec 0 duration_ms); [|lia].
  destruct (Z.ltb_spec (Z.abs duration_ms) (overflow_bound * 1000));
    [reflexivity|lia].
Qed.

Lemma duration_sec_of_overflow duration_ms elapsed :
  1000 * overflow_bound <= duration_ms ->
  duration_sec_of duration_ms elapsed = raise OverflowError.
Proof.
  intros Hge. pose proof overflow_bound_positive as Hb.
  unfold duration_sec_of, int_truediv.
  destruct (Z.ltb_spec 0 duration_ms); [|lia].
  destruct (Z.ltb_spec (Z.abs duration_ms) (overflow_bound * 1000));
    [lia|reflexivity].
Qed.

Lemma duration_sec_of_elapsed duration_ms elapsed :
  duration_ms <= 0 -> duration_sec_of duration_ms elapsed = ret elapsed.
Proof.
  intros Hle. unfold duration_sec_of.
  destruct (Z.ltb_spec 0 duration_ms); [lia|reflexivity].
Qed.

Lemma float_of_int_fits n :
  fits_double n -> float_of_int n = ret (nearest_double n 1).
Proof.
  unfold fits_double, float_of_int. intros Hn.
  destruct (Z.ltb_spec (Z.abs n) overflow_bound); [reflexivity|lia].
Qed.

Lemma float_of_int_overflow n :
  ~ fits_double n -> float_of_int n = raise OverflowError.
Proof.
  unfold fits_double, float_of_int. intros Hn.
  destruct (Z.ltb_spec (Z.abs n) overflow_bound); [lia|reflexivity].
Qed.

Lemma throughput_of_fits records_in duration_sec :
  fits_double records_in ->
  throughput_of records_in duration_sec
  = ret (if float_positive duration_sec
         then PrimFloat.div (nearest_double records_in 1) duration_sec
         else PrimFloat.zero).
Proof.
  intros Hn. unfold throughput_of. rewrite (float_of_int_fits _ Hn).
  destruct (float_positive duration_sec); [|reflexivity].
  unfold ret. by rewrite bind_Ret.
Qed.

Lemma throughput_of_overflow records_in duration_sec :
  float_positive duration_sec = true ->
  ~ fits_double records_in ->
  throughput_of records_in duration_sec = raise OverflowError.
Proof.
  intros Hd Hn. unfold throughput_of.
  rewrite Hd, (float_of_int_overflow _ Hn). unfold raise.
  by rewrite bind_Raise.
Qed.

Lemma throughput_of_not_positive records_in duration_sec :
  float_positive duration_sec = false ->
  throughput_of records_in duration_sec = ret PrimFloat.zero.
Proof. intros Hd. unfold throughput_of. by rewrite Hd. Qed.

(** The figures once the duration is known. *)
Lemma performance_with_duration status elapsed job others num_records
    duration_sec :
  duration_sec_of (duration_ms job) elapsed = ret duration_sec ->
  performance status elapsed (Some (job :: others)) num_records
  = (let records_in1 := if String.eqb status "FINISHED" then num_records
                        else records_in job in
     let* throughput := throughput_of records_in1 duration_sec in
     ret (Some (records_in1, duration_sec, throughput))).
Proof.
  intros Hd. unfold performance. rewrite Hd. unfold ret at 1.
  rewrite bind_Ret. cbn [app]. apply eq_sym, eta_M.
Qed.

Lemma performance_duration_overflow status elapsed job others num_records :
  1000 * overflow_bound <= duration_ms job ->
  performance status elapsed (Some (job :: others)) num_records
  = raise OverflowError.
Proof.
  intros Hge. unfold performance.
  rewrite (duration_sec_of_overflow _ _ Hge). unfold raise.
  by rewrite bind_Raise.
Qed.

(** Within the range of a double the figures are computed. *)
Lemma performance_in_range status elapsed job others num_records :
  duration_ms job < 1000 * overflow_bound ->
  fits_double (if String.eqb status "FINISHED" then num_records
               else records_in job) ->
  exists duration_sec throughput,
    performance status elapsed (Some (job :: others)) num_records
    = ret (Some (if String.eqb status "FINISHED" then num_records
                 else records_in job,
                 duration_sec, throughput)).
Proof.
  intros Hd Hn.
  assert (exists duration_sec,
             duration_sec_of (duration_ms job) elapsed = ret duration_sec)
    as [duration_sec E].
  { destruct (Z.lt_ge_cases 0 (duration_ms job)) as [Hpos|Hle].
    - eexists. apply duration_sec_of_positive. lia.
    - eexists. apply duration_sec_of_elapsed. lia. }
  rewrite (performance_with_duration _ _ _ _ _ _ E). cbv zeta.
  rewrite (throughput_of_fits _ duration_sec Hn). unfold ret at 1.
  rewrite bind_Ret. cbn [app]. eexists _, _. apply eq_sym, eta_M.
Qed.

Lemma print_summary_no_entry result num_records :
  res_metrics result = None \/ res_metrics result = Some [] ->
  print_summary result num_records = ret tt.
Proof.
  intros [Hm|Hm]; unfold print_summary, performance; rewrite Hm;
    unfold ret; by rewrite bind_Ret.
Qed.

Lemma print_summary_entry result num_records job others :
  res_metrics result = Some (job :: others) ->
  duration_ms job < 1000 * overflow_bound ->
  fits_double (if String.eqb (res_status result) "FINISHED" then num_records
               else records_in job) ->
  exists duration_sec throughput,
    print_summary result num_records
    = ([EvThroughput
          (if String.eqb (res_status result) "FINISHED" then num_records
           else records_in job)
          duration_sec throughput], Ret tt).
Proof.
  intros Hm Hd Hn. unfold print_summary. rewrite Hm.
  destruct (performance_in_range (res_status result) (res_elapsed_sec result)
              job others num_records Hd Hn) as (d & th & ->).
  exists d, th. unfold ret. by rewrite bind_Ret.
Qed.

(** The entries of a metrics dictionary are the totals of details
    documents the control plane answered. *)
Lemma collect_metrics_entries rest to_check acc l :
  outcome_of (collect_metrics rest to_check acc) = Ret l ->
  forall jm, jm ∈ l ->
    jm ∈ acc \/
    exists job job_details,
      detail_resp rest (id_of job) = Some job_details /\
      jm = job_metrics_of job job_details.
Proof.
  revert acc. induction to_check as [|job more IH]; intros acc;
    cbn [collect_metrics].
  - intros [= <-] jm Hjm. by left.
  - destruct (detail_resp rest (id_of job)) as [det|] eqn:Hdet.
    + rewrite urlopen_Some, bind_Ret. cbn [outcome_of snd].
      fold (outcome_of (collect_metrics rest more
                          (acc ++ [job_metrics_of job det]))).
      intros Hl jm Hjm.
      destruct (IH _ Hl jm Hjm) as [Hacc|Hnew]; [|by right].
      apply elem_of_app in Hacc as [Hacc|Hacc]; [by left|].
      apply list_elem_of_singleton in Hacc as ->.
      right. by exists job, det.
    + rewrite urlopen_None, bind_Raise. discriminate.
Qed.

Lemma get_job_metrics_entries rest target l :
  outcome_of (_get_job_metrics rest target) = Ret (Some l) ->
  forall jm, jm ∈ l ->
    exists job job_details,
      detail_resp rest (id_of job) = Some job_details /\
      jm = job_metrics_of job job_details.
Proof.
  unfold _get_job_metrics.
  destruct (jobs_resp rest) as [jobs|].
  - rewrite urlopen_Some, bind_Ret.
    pose proof (collect_metrics_entries rest
                  (jobs_to_check target jobs) []) as Hentries.
    destruct (collect_metrics rest (jobs_to_check target jobs) [])
      as [t [l'|e]]; cbn [outcome_of snd] in Hentries.
    + rewrite bind_Ret. cbn [trace_of outcome_of fst snd ret].
      rewrite try_except_Ret. cbn [outcome_of snd]. intros [= <-] jm Hjm.
      destruct (Hentries l' eq_refl jm Hjm) as [Hnil|Hnew]; [|done].
      by apply elem_of_nil in Hnil.
    + rewrite bind_Raise. cbn [trace_of outcome_of fst snd].
      rewrite try_except_Raise. cbn. discriminate.
  - rewrite urlopen_None, bind_Raise, try_except_Raise. cbn. discriminate.
Qed.

Lemma job_metrics_in_range job job_details :
  details_in_range job_details ->
  duration_ms (job_metrics_of job job_details) < 1000 * overflow_bound /\
  fits_double (records_in (job_metrics_of job job_details)).
Proof.
  intros [Hd Hn].
  destruct (job_metrics_of_header job job_details) as (_ & _ & _ & ->).
  split; [exact Hd|]. unfold job_metrics_of.
  match goal with |- context [foldl add_vertex ?a ?b] =>
    destruct (foldl_add_vertex a b) as (_ & _ & _ & _ & E & _)
  end.
  cbv zeta in E. rewrite E. cbn [records_in]. by rewrite Z.add_0_l.
Qed.

(** What the poll loop leaves as metrics comes from the details the
    control plane answered during the loop. *)
Lemma monitor_metrics_in_range w st :
  control_plane_in_range w ->
  outcome_of (monitor w) = Ret st ->
  forall jm l, final_metrics st = Some (jm :: l) ->
    duration_ms jm < 1000 * overflow_bound /\ fits_double (records_in jm).
Proof.
  intros Hrange Hst jm l Hm.
  destruct (poll_loop_result (existing_ids_of (baseline_jobs w)) (ticks w)
              tick_budget 0 initial_locals) as (st' & Hst' & Hcases).
  fold (monitor w) in Hst'. rewrite Hst in Hst'. injection Hst' as <-.
  destruct Hcases as [(_ & Hfm & _) | (k & j & m & Hk & _ & _ & Hget & ->)].
  - rewrite Hfm in Hm. discriminate.
  - cbn [final_metrics] in Hm. subst m.
    destruct (get_job_metrics_entries _ _ _ Hget jm) as (job & det & Hdet & ->).
    { by left. }
    apply job_metrics_in_range. apply (Hrange k (id_of job) det); [lia|done].
Qed.

(** The summary of a result within the range of a double returns. *)
Lemma print_summary_in_range result num_records :
  fits_double num_records ->
  (forall jm l, res_metrics result = Some (jm :: l) ->
     duration_ms jm < 1000 * overflow_bound /\ fits_double (records_in jm)) ->
  print_summary result num_records
  = (trace_of (print_summary result num_records), Ret tt).
Proof.
  intros Hn Hentries.
  destruct (res_metrics result) as [[|jm l]|] eqn:Hm.
  - rewrite print_summary_no_entry by (by right). reflexivity.
  - destruct (Hentries jm l eq_refl) as [Hd Hr].
    destruct (print_summary_entry result num_records jm l Hm Hd)
      as (d & th & ->); [|reflexivity].
    by destruct (String.eqb (res_status result) "FINISHED").
  - rewrite print_summary_no_entry by (by left). reflexivity.
Qed.

(** A run whose job is monitored ends as its summary ends. *)
Lemma run_benchmark_after_job w workload num_records t result :
  known_workload workload ->
  _run_sql_job w workload = (t, Ret result) ->
  run_benchmark w workload num_records
  = (trace_of (cancel_all_jobs (cleanup w)) ++ [EvSleep 2] ++ t
       ++ trace_of (print_summary result num_records),
     match outcome_of (print_summary result num_records) with
     | Ret _ => Ret (Some result)
     | Raise e => Raise e
     end).
Proof.
  intros Hknown E. rewrite (run_benchmark_known _ _ _ Hknown).
  rewrite cancel_all_jobs_eq, bind_Ret, sleep_eq, bind_Ret, E, bind_Ret.
  cbn [trace_of outcome_of fst snd].
  destruct (print_summary result num_records) as [t' [[]|e]].
  - rewrite bind_Ret. cbn [trace_of outcome_of fst snd ret app].
    by rewrite app_nil_r.
  - rewrite bind_Raise. reflexivity.
Qed.

Lemma run_benchmark_unknown w workload num_records :
  ~ known_workload workload ->
  run_benchmark w workload num_records
  = (trace_of (cancel_all_jobs (cleanup w)) ++ [EvSleep 2], Ret None).
Proof.
  intros Hunknown. unfold run_benchmark.
  rewrite cancel_all_jobs_eq, bind_Ret, sleep_eq, bind_Ret.
  cbn [trace_of outcome_of fst snd].
  destruct (String.eqb_spec workload "identity") as [->|_].
  { exfalso. apply Hunknown. by left. }
  destruct (String.eqb_spec workload "wordcount") as [->|_].
  { exfalso. apply Hunknown. right. by left. }
  destruct (String.eqb_spec workload "window") as [->|_].
  { exfalso. apply Hunknown. right. by right. }
  cbn [ret trace_of outcome_of fst snd app]. by rewrite ?app_nil_r.
Qed.

Lemma known_workload_dec workload :
  known_workload workload \/ ~ known_workload workload.
Proof.
  unfold known_workload.
  destruct (String.eqb_spec workload "identity"); [by left; left|].
  destruct (String.eqb_spec workload "wordcount"); [by left; right; left|].
  destruct (String.eqb_spec workload "window"); [by left; right; right|].
  right. intros [?|[?|?]]; done.
Qed.

(** C8, as stated, fails: when [docker cp] exits with a nonzero status,
    [run] raises CalledProcessError and nothing between it and the caller
    of [run_benchmark] handles it. *)
Lemma C8_counterexample :
  docker_cp world_copy_fails = Exited 1 /\
  outcome_of (run_benchmark world_copy_fails "identity" 100000)
  = Raise CalledProcessError.
Proof. split; vm_compute; reflexivity. Qed.

(** The summary is not guarded either.  A job that FINISHED with a metrics
    entry under a record count of 10^400, which no double holds: the
    division of line 466 raises OverflowError, and the run raises it. *)
Lemma summary_overflow_propagates :
  write_ok world_job_finishes = true /\
  docker_cp world_job_finishes = Exited 0 /\
  submission world_job_finishes = Exited 0 /\
  outcome_of (run_benchmark world_job_finishes "identity" (10 ^ 400))
  = Raise OverflowError.
Proof. repeat split; vm_compute; reflexivity. Qed.

(** Nor is the decoding of what the SQL client prints: a client whose
    output is not text makes [run] raise UnicodeDecodeError, and the run
    raises it. *)
Lemma client_output_not_text_propagates :
  outcome_of (run_benchmark world_client_output_not_text "identity" 100000)
  = Raise UnicodeDecodeError.
Proof. vm_compute. reflexivity. Qed.

(** C8, amended: failures of control-plane requests (listing, details,
    cancel) never leave [run_benchmark]; whenever the SQL file can be
    written, [docker cp] exits with status zero, the call of the SQL
    client returns (with any exit status), and the record count and the
    durations and record counts the control plane reports are within the
    range of a double, the run returns, and for a known workload it
    returns a result. *)
Theorem C8_returns_unless_collaborator_fails (w : World) (workload : string)
    (num_records : Z) (returncode : Z) :
  write_ok w = true ->
  docker_cp w = Exited 0 ->
  submission w = Exited returncode ->
  fits_double num_records ->
  control_plane_in_range w ->
  exists r,
    outcome_of (run_benchmark w workload num_records) = Ret r /\
    (known_workload workload ->
     exists result,
       r = Some result /\
       outcome_of (_run_sql_job w workload) = Ret result).
Proof.
  intros Hw Hcp Hsub Hn Hrange.
  destruct (known_workload_dec workload) as [Hknown|Hunknown].
  - destruct (run_sql_job_eq w workload returncode Hw Hcp Hsub)
      as (st & Hst & E).
    rewrite (run_benchmark_after_job _ _ _ _ _ Hknown E), E.
    rewrite print_summary_in_range.
    + cbn [outcome_of snd]. eexists. split; [reflexivity|].
      intros _. by eexists.
    + exact Hn.
    + cbn [res_metrics]. exact (monitor_metrics_in_range w st Hrange Hst).
  - rewrite (run_benchmark_unknown _ _ _ Hunknown).
    exists None. split; [reflexivity|done].
Qed.

Lemma C8_returns_unless_collaborator_fails_witness :
  exists r,
    outcome_of (run_benchmark world_job_finishes "identity" 100000) = Ret r /\
    (known_workload "identity" ->
     exists result,
       r = Some result /\
       outcome_of (_run_sql_job world_job_finishes "identity") = Ret result).
Proof.
  apply (C8_returns_unless_collaborator_fails
           world_job_finishes "identity" 100000 0);
    [reflexivity | reflexivity | reflexivity | vm_compute; reflexivity |].
  intros k job_id job_details _ H. simpl in H. injection H as <-.
  split; vm_compute; reflexivity.
Defined.

(** C2, as stated, fails: with three RUNNING jobs of which the first one
    cannot be cancelled, the cleanup sends one cancel request and leaves;
    the other two jobs are never sent a request. *)
Lemma C2_counterexample :
  cleanup_jobs first_cancel_fails = Some three_running /\
  running_ids three_running = ["j1"; "j2"; "j3"] /\
  cancel_resp first_cancel_fails "j1" = false /\
  trace_of (cancel_all_jobs first_cancel_fails) = [EvGetJobs; EvCancel "j1"] /\
  (EvCancel "j2" ∉ trace_of (cancel_all_jobs first_cancel_fails)) /\
  (EvCancel "j3" ∉ trace_of (cancel_all_jobs first_cancel_fails)).
Proof.
  assert (trace_of (cancel_all_jobs first_cancel_fails)
          = [EvGetJobs; EvCancel "j1"]) as E by (vm_compute; reflexivity).
  rewrite E. repeat split; try reflexivity.
  - rewrite !elem_of_cons, elem_of_nil. intuition discriminate.
  - rewrite !elem_of_cons, elem_of_nil. intuition discriminate.
Qed.

(** C2, amended: the cleanup sends cancel requests to the RUNNING jobs in
    listing order and stops at the first request that fails; the jobs
    listed after it are sent nothing.  When every request succeeds, every
    RUNNING job is sent one.  A failure never leaves [cancel_all_jobs],
    and the run still proceeds to the submission. *)
Theorem C2_cancel_stops_at_first_failure (w : World) (workload : string)
    (num_records : Z) (jobs : list Job) :
  cleanup_jobs (cleanup w) = Some jobs ->
  write_ok w = true ->
  docker_cp w = Exited 0 ->
  known_workload workload ->
  let cancel := cancel_resp (cleanup w) in
  let sent := trace_of (cancel_all_jobs (cleanup w)) in
  outcome_of (cancel_all_jobs (cleanup w)) = Ret tt /\
  ((forall x, x ∈ running_ids jobs -> cancel x = true) ->
   sent = EvGetJobs :: (EvCancel <$> running_ids jobs)) /\
  (forall before x after,
      running_ids jobs = before ++ x :: after ->
      (forall y, y ∈ before -> cancel y = true) ->
      cancel x = false ->
      sent = EvGetJobs :: (EvCancel <$> before ++ [x])) /\
  EvRun submit_cmd ∈ trace_of (run_benchmark w workload num_records).
Proof.
  intros Hjobs Hw Hcp Hknown cancel sent. subst cancel sent.
  rewrite cancel_all_jobs_trace, Hjobs.
  split; [apply cancel_all_jobs_returns|]. split; [|split].
  - intros Hok. by rewrite cancel_requests_all_ok.
  - intros before x after E Hok Hx.
    by rewrite (cancel_requests_first_failure _ _ before x after).
  - rewrite (run_benchmark_known _ _ _ Hknown).
    rewrite cancel_all_jobs_eq, bind_Ret, sleep_eq, bind_Ret.
    destruct (run_sql_job_prologue w workload Hw Hcp) as [t Ht].
    cbn [trace_of outcome_of fst snd].
    destruct (_run_sql_job w workload) as [t' [r|e]];
      cbn [trace_of fst] in Ht; subst t'.
    + rewrite bind_Ret. unfold prologue, trace_of. cbn [fst].
      rewrite !elem_of_app, !elem_of_cons. naive_solver.
    + rewrite bind_Raise. unfold prologue, trace_of. cbn [fst].
      rewrite !elem_of_app, !elem_of_cons. naive_solver.
Qed.

Lemma C2_cancel_stops_at_first_failure_witness :
  let cancel := cancel_resp (cleanup world_cleanup_fails) in
  let sent := trace_of (cancel_all_jobs (cleanup world_cleanup_fails)) in
  outcome_of (cancel_all_jobs (cleanup world_cleanup_fails)) = Ret tt /\
  ((forall x, x ∈ running_ids three_running -> cancel x = true) ->
   sent = EvGetJobs :: (EvCancel <$> running_ids three_running)) /\
  (forall before x after,
      running_ids three_running = before ++ x :: after ->
      (forall y, y ∈ before -> cancel y = true) ->
      cancel x = false ->
      sent = EvGetJobs :: (EvCancel <$> before ++ [x])) /\
  EvRun submit_cmd ∈ trace_of (run_benchmark world_cleanup_fails "window" 500000).
Proof.
  apply (C2_cancel_stops_at_first_failure world_cleanup_fails "window" 500000
           three_running); [reflexivity | reflexivity | reflexivity |].
  right. right. reflexivity.
Defined.

(** ** Throughput *)

(** C4, as stated, fails on both counts.  A FINISHED job that reports 50
    records and a duration of 1000 ms, in a run of 10 s of wall clock over
    100 input records, gets a throughput of 100/1 = 100, where the formula
    of the claim gives 50/max(1,10) = 5; and with zero reported records
    the formula gives 100/max(1,10) = 10, still not 100. *)
Lemma C4_counterexample :
  let job50 := mkJM "C" "job" "FINISHED" 1000 50 0 0 0 in
  let job0 := mkJM "C" "job" "FINISHED" 1000 0 0 0 0 in
  (performance "FINISHED" 10 (Some [job50]) 100
   = ret (Some (100, 1%float, 100%float)) /\
   spec_throughput 50 100 1 10 = 5%float /\
   100%float <> spec_throughput 50 100 1 10)
  /\
  (performance "FINISHED" 10 (Some [job0]) 100
   = ret (Some (100, 1%float, 100%float)) /\
   spec_throughput 0 100 1 10 = 10%float /\
   100%float <> spec_throughput 0 100 1 10).
Proof.
  repeat split; try (vm_compute; reflexivity); vm_compute; discriminate.
Qed.

(** The divisions are those of Python's doubles: one record in 3 ms is a
    duration of 0.003 s, the double nearest to 3/1000, and a throughput of
    333.3333333333333, the double nearest to the quotient of the two. *)
Lemma throughput_is_rounded :
  performance "FINISHED" 10 (Some [three_ms_job]) 1
  = ret (Some (1, 0x1.89374bc6a7efap-9%float, 0x1.4d55555555555p+8%float)).
Proof. vm_compute. reflexivity. Qed.

(** C4, amended: when the status is FINISHED and the metrics hold a job
    entry, the records processed are the caller-supplied input record
    count, whatever the control plane reported, and the throughput is
    the double division of that count by the job-reported duration in
    seconds ([duration_ms / 1000] rounded to a double) when the job
    reports a positive duration, and by the elapsed wall-clock seconds
    otherwise; it is zero when the divisor is not positive.  The
    computation raises OverflowError when the reported duration, or the
    record count under a positive divisor, is beyond the range of a
    double.  The throughput agrees with [records / max(duration, elapsed)]
    when the control plane reported zero records and the job-reported
    duration is positive and not below the elapsed time. *)
Theorem C4_throughput_by_reported_duration :
  forall (elapsed : float) (job : JobMetrics) (others : list JobMetrics)
         (num_records : Z),
    let figures :=
      performance "FINISHED" elapsed (Some (job :: others)) num_records in
    let job_sec := nearest_double (duration_ms job) 1000 in
    let records := nearest_double num_records 1 in
    (0 < duration_ms job < 1000 * overflow_bound ->
     fits_double num_records ->
     figures = ret (Some (num_records, job_sec,
                          if float_positive job_sec
                          then PrimFloat.div records job_sec
                          else PrimFloat.zero))) /\
    (duration_ms job <= 0 ->
     fits_double num_records ->
     figures = ret (Some (num_records, elapsed,
                          if float_positive elapsed
                          then PrimFloat.div records elapsed
                          else PrimFloat.zero))) /\
    (duration_ms job <= 0 ->
     float_positive elapsed = false ->
     figures = ret (Some (num_records, elapsed, PrimFloat.zero))) /\
    (1000 * overflow_bound <= duration_ms job ->
     figures = raise OverflowError) /\
    (~ fits_double num_records ->
     (0 < duration_ms job < 1000 * overflow_bound /\
      float_positive job_sec = true) \/
     (duration_ms job <= 0 /\ float_positive elapsed = true) ->
     figures = raise OverflowError) /\
    (records_in job = 0 ->
     0 < duration_ms job < 1000 * overflow_bound ->
     fits_double num_records ->
     float_positive job_sec = true ->
     PrimFloat.ltb job_sec elapsed = false ->
     figures
     = ret (Some (num_records, job_sec,
                  spec_throughput (records_in job) num_records
                                  job_sec elapsed))).
Proof.
  intros elapsed job others num_records figures job_sec records.
  assert (forall duration_sec,
             duration_sec_of (duration_ms job) elapsed = ret duration_sec ->
             fits_double num_records ->
             figures = ret (Some (num_records, duration_sec,
                                  if float_positive duration_sec
                                  then PrimFloat.div records duration_sec
                                  else PrimFloat.zero))) as Hfits.
  { intros d Hd Hn. unfold figures.
    rewrite (performance_with_duration _ _ _ _ _ _ Hd).
    cbn [String.eqb Ascii.eqb Bool.eqb]. cbv zeta.
    rewrite (throughput_of_fits _ d Hn). unfold ret at 1.
    rewrite bind_Ret. reflexivity. }
  assert (forall duration_sec,
             duration_sec_of (duration_ms job) elapsed = ret duration_sec ->
             float_positive duration_sec = true ->
             ~ fits_double num_records ->
             figures = raise OverflowError) as Hover.
  { intros d Hd Hpos Hn. unfold figures.
    rewrite (performance_with_duration _ _ _ _ _ _ Hd).
    cbn [String.eqb Ascii.eqb Bool.eqb]. cbv zeta.
    rewrite (throughput_of_overflow _ d Hpos Hn). unfold raise.
    by rewrite bind_Raise. }
  split; [|split; [|split; [|split; [|split]]]].
  - intros Hd Hn. apply Hfits; [|exact Hn].
    by apply duration_sec_of_positive.
  - intros Hd Hn. apply Hfits; [|exact Hn].
    by apply duration_sec_of_elapsed.
  - intros Hd He. unfold figures.
    rewrite (performance_with_duration _ _ _ _ _ elapsed)
      by (by apply duration_sec_of_elapsed).
    cbn [String.eqb Ascii.eqb Bool.eqb]. cbv zeta.
    rewrite (throughput_of_not_positive _ _ He). unfold ret at 1.
    by rewrite bind_Ret.
  - intros Hd. by apply performance_duration_overflow.
  - intros Hn [[Hd Hpos] | [Hd Hpos]].
    + apply (Hover job_sec); [|done..]. by apply duration_sec_of_positive.
    + apply (Hover elapsed); [|done..]. by apply duration_sec_of_elapsed.
  - intros Hzero Hd Hn Hpos Hmax.
    rewrite (Hfits job_sec) by (by try apply duration_sec_of_positive).
    rewrite Hpos. unfold spec_throughput, spec_records_processed, float_max.
    rewrite Hzero, Hmax. reflexivity.
Qed.

(** * Further properties of the code *)

(** ** Invariants of the result of [_run_sql_job] *)

(** X1: the job a run reports is a job the control plane listed during the
    polling, and its identifier is not one of the baseline listing. *)
Theorem resolved_job_is_listed_and_new (w : World) (job_name : string)
    (returncode : Z) :
  write_ok w = true ->
  docker_cp w = Exited 0 ->
  submission w = Exited returncode ->
  exists r,
    outcome_of (_run_sql_job w job_name) = Ret r /\
    forall x, res_job_id r = Some x ->
      (forall jobs b, baseline_jobs w = Some jobs -> b ∈ jobs ->
                      id_of b <> x) /\
      exists k jobs j,
        (k < tick_budget)%nat /\
        poll_jobs (ticks w k) = Some jobs /\ j ∈ jobs /\ id_of j = x.
Proof.
  intros Hw Hcp Hsub.
  destruct (run_sql_job_eq w job_name returncode Hw Hcp Hsub)
    as (st & Hst & ->).
  eexists. split; [reflexivity|]. cbn [res_job_id]. intros x Hx.
  destruct (poll_loop_result (existing_ids_of (baseline_jobs w)) (ticks w)
              tick_budget 0 initial_locals) as (st' & Hst' & Hcases).
  fold (monitor w) in Hst'. rewrite Hst in Hst'. injection Hst' as <-.
  assert (exists k j, (k < tick_budget)%nat /\
            observed (existing_ids_of (baseline_jobs w)) (ticks w k) = Some j /\
            id_of j = x) as (k & j & Hk & Hobs & Hid).
  { destruct Hcases as [(_ & _ & [Hsame | (k & j & Hk & Hobs & Hid)])
                       | (k & j & m & Hk & Hobs & _ & _ & ->)].
    - rewrite Hsame in Hx. discriminate.
    - exists k, j. rewrite Hid in Hx. injection Hx as <-.
      split; [lia|]. done.
    - exists k, j. cbn in Hx. injection Hx as <-. split; [lia|]. done. }
  destruct (observed_listed _ _ _ Hobs) as (jobs & Hjobs & Hin & Hnew).
  split.
  - intros bjobs b Hb Hbin Heq. apply Hnew. rewrite Hb. cbn.
    apply elem_of_add_ids. right. exists b. split; [done|]. congruence.
  - by exists k, jobs, j.
Qed.

Lemma resolved_job_is_listed_and_new_witness :
  exists r,
    outcome_of (_run_sql_job world_second_job_overtakes "identity") = Ret r /\
    forall x, res_job_id r = Some x ->
      (forall jobs b, baseline_jobs world_second_job_overtakes = Some jobs ->
                      b ∈ jobs -> id_of b <> x) /\
      exists k jobs j,
        (k < tick_budget)%nat /\
        poll_jobs (ticks world_second_job_overtakes k) = Some jobs /\
        j ∈ jobs /\ id_of j = x.
Proof.
  apply (resolved_job_is_listed_and_new world_second_job_overtakes
           "identity" 0); reflexivity.
Defined.

(** X2: the status of a result is FINISHED, FAILED, CANCELED or UNKNOWN,
    whatever strings the control plane uses; it is UNKNOWN only after a
    submission that exited with a nonzero status, and then the metrics
    are empty. *)
Theorem result_status_domain (w : World) (job_name : string)
    (returncode : Z) :
  write_ok w = true ->
  docker_cp w = Exited 0 ->
  submission w = Exited returncode ->
  exists r,
    outcome_of (_run_sql_job w job_name) = Ret r /\
    (res_status r = "FINISHED" \/ res_status r = "FAILED" \/
     res_status r = "CANCELED" \/ res_status r = "UNKNOWN") /\
    (res_status r = "UNKNOWN" -> returncode <> 0 /\ res_metrics r = None) /\
    (returncode = 0 -> is_terminal (res_status r) = true).
Proof.
  intros Hw Hcp Hsub.
  destruct (run_sql_job_eq w job_name returncode Hw Hcp Hsub)
    as (st & Hst & ->).
  eexists. split; [reflexivity|]. cbn [res_status res_metrics].
  destruct (poll_loop_result (existing_ids_of (baseline_jobs w)) (ticks w)
              tick_budget 0 initial_locals) as (st' & Hst' & Hcases).
  fold (monitor w) in Hst'. rewrite Hst in Hst'. injection Hst' as <-.
  destruct Hcases as [(Hfs & Hfm & _) | (k & j & m & _ & _ & Hterm & _ & ->)].
  - rewrite Hfs, Hfm. cbn [initial_locals final_status final_metrics].
    rewrite apply_fallback_unknown.
    destruct (Z.eqb_spec returncode 0) as [->|Hrc].
    + split; [by left|]. split; [discriminate|]. reflexivity.
    + split; [by do 3 right|]. split; [done|]. contradiction.
  - cbn [final_status final_metrics].
    rewrite (apply_fallback_terminal _ _ Hterm).
    pose proof Hterm as [E | [E | E]]%is_terminal_spec; rewrite E in *;
      (split; [tauto|]); (split; [discriminate|]); reflexivity.
Qed.

Lemma result_status_domain_witness :
  exists r,
    outcome_of (_run_sql_job world_never_terminal "identity") = Ret r /\
    (res_status r = "FINISHED" \/ res_status r = "FAILED" \/
     res_status r = "CANCELED" \/ res_status r = "UNKNOWN") /\
    (res_status r = "UNKNOWN" -> 1 <> 0 /\ res_metrics r = None) /\
    (1 = 0 -> is_terminal (res_status r) = true).
Proof.
  apply (result_status_domain world_never_terminal "identity" 1);
    reflexivity.
Defined.

(** X3: metrics are reported only together with a job identifier and a
    terminal status, and for a nonempty identifier they hold at most one
    entry, of that identifier; a result without a job identifier has
    empty metrics and status UNKNOWN or FINISHED. *)
Theorem result_metrics_belong_to_job (w : World) (job_name : string)
    (returncode : Z) :
  write_ok w = true ->
  docker_cp w = Exited 0 ->
  submission w = Exited returncode ->
  exists r,
    outcome_of (_run_sql_job w job_name) = Ret r /\
    (res_job_id r = None ->
       res_metrics r = None /\
       (res_status r = "UNKNOWN" \/ res_status r = "FINISHED")) /\
    (forall l, res_metrics r = Some l ->
       exists x, res_job_id r = Some x /\
                 is_terminal (res_status r) = true /\
                 (x <> "" ->
                  (length l <= 1)%nat /\ forall jm, jm ∈ l -> jm_id jm = x)).
Proof.
  intros Hw Hcp Hsub.
  destruct (run_sql_job_eq w job_name returncode Hw Hcp Hsub)
    as (st & Hst & ->).
  eexists. split; [reflexivity|]. cbn [res_status res_metrics res_job_id].
  destruct (poll_loop_result (existing_ids_of (baseline_jobs w)) (ticks w)
              tick_budget 0 initial_locals) as (st' & Hst' & Hcases).
  fold (monitor w) in Hst'. rewrite Hst in Hst'. injection Hst' as <-.
  destruct Hcases as [(Hfs & Hfm & _) | (k & j & m & _ & _ & Hterm & Hm & ->)].
  - rewrite Hfs, Hfm. cbn [initial_locals final_status final_metrics].
    split; [|discriminate]. intros _. split; [done|].
    rewrite apply_fallback_unknown. destruct (returncode =? 0); auto.
  - cbn [job_id final_status final_metrics]. split; [discriminate|].
    intros l ->. exists (id_of j). split; [done|].
    rewrite (apply_fallback_terminal _ _ Hterm). split; [done|].
    intros Hne. by apply (get_job_metrics_target_entries _ _ _ Hne Hm).
Qed.

Lemma result_metrics_belong_to_job_witness :
  exists r,
    outcome_of (_run_sql_job world_fails_on_third_tick "window") = Ret r /\
    (res_job_id r = None ->
       res_metrics r = None /\
       (res_status r = "UNKNOWN" \/ res_status r = "FINISHED")) /\
    (forall l, res_metrics r = Some l ->
       exists x, res_job_id r = Some x /\
                 is_terminal (res_status r) = true /\
                 (x <> "" ->
                  (length l <= 1)%nat /\ forall jm, jm ∈ l -> jm_id jm = x)).
Proof.
  apply (result_metrics_belong_to_job world_fails_on_third_tick "window" 0);
    reflexivity.
Defined.

(** X4: once a tick has resolved a job, the loop never goes back to having
    none: later ticks may replace the identifier but do not clear it. *)
Theorem resolved_job_id_is_never_cleared :
  forall (existing : gset string) (tks : nat -> PollTick) (i n : nat)
         (st : Locals),
  exists st',
    outcome_of (poll_loop existing tks i n st) = Ret st' /\
    (is_Some (job_id st) -> is_Some (job_id st')) /\
    (final_status st = "UNKNOWN" ->
     final_status st' = "UNKNOWN" \/ is_Some (job_id st')).
Proof.
  intros existing tks i n st.
  destruct (poll_loop_result existing tks n i st) as (st' & Ho & Hcases).
  exists st'. split; [exact Ho|].
  destruct Hcases as [(Hfs & _ & [-> | (k & j & _ & _ & ->)])
                     | (k & j & m & _ & _ & _ & _ & ->)]; cbn [job_id].
  - split; [done|]. intros E. left. congruence.
  - split; [by eexists|]. intros _. right. by eexists.
  - split; [by eexists|]. intros _. right. by eexists.
Qed.

(** ** How long the loop runs *)





(** ** Failures before the poll loop *)

Lemma exited_zero_or_not (proc : ProcOutcome) :
  proc = Exited 0 \/ proc <> Exited 0.
Proof.
  destruct proc as [returncode| |]; [|by right..].
  destruct (Z.eq_dec returncode 0) as [->|Hne]; [by left|].
  right. congruence.
Qed.

Lemma run_sql_job_write_fails w job_name :
  write_ok w = false ->
  _run_sql_job w job_name
  = ([EvWriteFile (sql_file_of job_name)], Raise OSError).
Proof.
  intros Hw. unfold _run_sql_job, write_file. rewrite Hw, bind_emit.
  cbn [trace_of outcome_of fst snd raise]. by rewrite bind_Raise.
Qed.

Lemma run_sql_job_copy_fails w job_name :
  write_ok w = true ->
  docker_cp w <> Exited 0 ->
  exists e,
    _run_sql_job w job_name
    = ([EvWriteFile (sql_file_of job_name);
        EvRun (cp_cmd (sql_file_of job_name))], Raise e) /\
    e = match docker_cp w with
        | Exited _ => CalledProcessError
        | SpawnFailed => OSError
        | DecodeFailed => UnicodeDecodeError
        end.
Proof.
  intros Hw Hcp. unfold _run_sql_job, write_file, run. rewrite Hw, bind_emit.
  cbn [trace_of outcome_of fst snd ret]. rewrite bind_Ret, bind_emit.
  destruct (docker_cp w) as [returncode| |].
  - destruct (Z.eqb_spec returncode 0) as [->|Hne]; [done|].
    cbn [andb negb trace_of outcome_of fst snd raise].
    rewrite bind_Raise. by eexists.
  - cbn [trace_of outcome_of fst snd raise]. rewrite bind_Raise. by eexists.
  - cbn [trace_of outcome_of fst snd raise]. rewrite bind_Raise. by eexists.
Qed.

Lemma run_sql_job_client_missing w job_name :
  write_ok w = true ->
  docker_cp w = Exited 0 ->
  submission w = SpawnFailed ->
  _run_sql_job w job_name = (prologue job_name, Raise OSError).
Proof.
  intros Hw Hcp Hsub.
  apply (run_sql_job_client_raises w job_name OSError Hw Hcp). by left.
Qed.

(** X6: when the SQL file cannot be written, [docker cp] fails or the SQL
    client cannot be started, [_run_sql_job] raises without sleeping or
    polling; in the first two cases nothing is submitted and the control
    plane is not asked anything. *)
Theorem failure_before_the_loop (w : World) (job_name : string) :
  write_ok w = false \/ docker_cp w <> Exited 0 \/ submission w = SpawnFailed ->
  exists e,
    outcome_of (_run_sql_job w job_name) = Raise e /\
    naps (trace_of (_run_sql_job w job_name)) = O /\
    (listings (trace_of (_run_sql_job w job_name)) <= 1)%nat /\
    (write_ok w = false \/ docker_cp w <> Exited 0 ->
     (EvRun submit_cmd ∉ trace_of (_run_sql_job w job_name)) /\
     listings (trace_of (_run_sql_job w job_name)) = O) /\
    (e = CalledProcessError ->
     write_ok w = true /\ exists returncode,
       docker_cp w = Exited returncode /\ returncode <> 0).
Proof.
  intros Hfail.
  destruct (write_ok w) eqn:Hw.
  - destruct (exited_zero_or_not (docker_cp w)) as [Hcp|Hcp].
    + destruct Hfail as [?|[?|Hsub]]; [done..|].
      rewrite (run_sql_job_client_missing w job_name Hw Hcp Hsub).
      exists OSError. cbn [trace_of outcome_of fst snd prologue naps listings].
      split; [done|]. split; [done|]. split; [lia|]. split; [|done].
      intros [?|?]; done.
    + destruct (run_sql_job_copy_fails w job_name Hw Hcp) as (e & -> & He).
      exists e. cbn [trace_of outcome_of fst snd naps listings].
      split; [done|]. split; [done|]. split; [lia|]. split.
      * intros _. split; [|done].
        rewrite !elem_of_cons, elem_of_nil. unfold cp_cmd, submit_cmd.
        intros [?|[[=]|?]]; done.
      * intros ->. split; [done|].
        destruct (docker_cp w) as [returncode| |]; [|done..].
        exists returncode. split; [done|]. congruence.
  - rewrite (run_sql_job_write_fails w job_name Hw).
    exists OSError. cbn [trace_of outcome_of fst snd naps listings].
    split; [done|]. split; [done|]. split; [lia|]. split; [|done].
    intros _. split; [|done].
    rewrite !elem_of_cons, elem_of_nil. intros [?|?]; done.
Qed.

Lemma failure_before_the_loop_witness :
  exists e,
    outcome_of (_run_sql_job world_copy_fails "identity") = Raise e /\
    naps (trace_of (_run_sql_job world_copy_fails "identity")) = O /\
    (listings (trace_of (_run_sql_job world_copy_fails "identity")) <= 1)%nat /\
    (write_ok world_copy_fails = false \/
     docker_cp world_copy_fails <> Exited 0 ->
     (EvRun submit_cmd ∉ trace_of (_run_sql_job world_copy_fails "identity")) /\
     listings (trace_of (_run_sql_job world_copy_fails "identity")) = O) /\
    (e = CalledProcessError ->
     write_ok world_copy_fails = true /\ exists returncode,
       docker_cp world_copy_fails = Exited returncode /\ returncode <> 0).
Proof.
  apply (failure_before_the_loop world_copy_fails "identity").
  right. left. discriminate.
Defined.

(** X7: whatever the environment does, one [_run_sql_job] sleeps at most 60
    times, 120 seconds in all, and asks for the job listing at most 121
    times. *)
Theorem run_stays_within_budget :
  forall (w : World) (job_name : string),
    (naps (trace_of (_run_sql_job w job_name)) <= tick_budget)%nat /\
    slept (trace_of (_run_sql_job w job_name)) <= max_wait /\
    (listings (trace_of (_run_sql_job w job_name)) <= 1 + 2 * tick_budget)%nat.
Proof.
  intros w job_name.
  destruct (write_ok w) eqn:Hw;
    [|rewrite (run_sql_job_write_fails w job_name Hw); cbn [trace_of fst prologue naps slept listings];
      unfold max_wait; repeat split; lia].
  destruct (exited_zero_or_not (docker_cp w)) as [Hcp|Hcp];
    [|destruct (run_sql_job_copy_fails w job_name Hw Hcp) as (e & -> & _);
      cbn [trace_of fst prologue naps slept listings];
      unfold max_wait; repeat split; lia].
  destruct (submission w) as [returncode| |] eqn:Hsub;
    [|rewrite (run_sql_job_client_raises w job_name OSError Hw Hcp)
        by (by left);
      cbn [trace_of fst prologue naps slept listings];
      unfold max_wait; repeat split; lia
     |rewrite (run_sql_job_client_raises w job_name UnicodeDecodeError Hw Hcp)
        by (by right);
      cbn [trace_of fst prologue naps slept listings];
      unfold max_wait; repeat split; lia].
  destruct (run_sql_job_eq w job_name returncode Hw Hcp Hsub)
    as (st & _ & ->).
  destruct (poll_loop_sleeps (existing_ids_of (baseline_jobs w)) (ticks w)
              tick_budget 0 initial_locals) as (Hn & Hs & Hl).
  fold (monitor w) in Hn, Hs, Hl.
  cbn [trace_of fst]. fold (trace_of (monitor w)).
  rewrite naps_app, slept_app, listings_app, Hs.
  cbn [prologue naps slept listings].
  split; [lia|]. split; [|lia].
  change max_wait with (poll_interval * Z.of_nat tick_budget).
  unfold poll_interval. lia.
Qed.



(** ** [_get_job_metrics] *)

Lemma jobs_to_check_untargeted target jobs :
  truthy target = false ->
  jobs_to_check target jobs = not_canceled jobs.
Proof.
  intros Ht. unfold not_canceled.
  induction jobs as [|job rest IH]; cbn [jobs_to_check List.filter]; [done|].
  rewrite Ht, IH. reflexivity.
Qed.

Lemma jobs_to_check_first target before job after :
  target <> "" ->
  (forall b, b ∈ before -> id_of b <> target) ->
  id_of job = target ->
  jobs_to_check (Some target) (before ++ job :: after) = [job].
Proof.
  intros Hne Hbefore Hid.
  assert (truthy (Some target) = true) as Ht.
  { unfold truthy. destruct (String.eqb_spec target ""); done. }
  induction before as [|b before IH]; cbn [app jobs_to_check]; rewrite Ht;
    unfold is_target.
  - destruct (String.eqb_spec (id_of job) target); done.
  - destruct (String.eqb_spec (id_of b) target) as [E|_].
    + exfalso. apply (Hbefore b); [by left|done].
    + apply IH. intros b' Hb'. apply Hbefore. by right.
Qed.

Lemma jobs_to_check_absent target jobs :
  target <> "" ->
  (forall j, j ∈ jobs -> id_of j <> target) ->
  jobs_to_check (Some target) jobs = [].
Proof.
  intros Hne Habsent.
  destruct (jobs_to_check_target target jobs Hne)
    as [E | (job & _ & Hin & Hid)]; [done|].
  exfalso. by apply (Habsent job).
Qed.

Lemma collect_metrics_all_ok rest (det : Job -> JobDetails) to_check acc :
  (forall j, j ∈ to_check -> detail_resp rest (id_of j) = Some (det j)) ->
  collect_metrics rest to_check acc
  = (EvGetJob <$> (id_of <$> to_check),
     Ret (acc ++ ((fun j => job_metrics_of j (det j)) <$> to_check))).
Proof.
  revert acc. induction to_check as [|job more IH]; intros acc Hok;
    cbn [collect_metrics].
  - by rewrite app_nil_r.
  - rewrite (Hok job) by (by left). rewrite urlopen_Some, bind_Ret.
    rewrite IH by (intros j Hj; apply Hok; by right).
    cbn [trace_of outcome_of fst snd]. rewrite !fmap_cons, <- app_assoc.
    reflexivity.
Qed.

Lemma collect_metrics_fails rest to_check acc j :
  j ∈ to_check ->
  detail_resp rest (id_of j) = None ->
  exists t, collect_metrics rest to_check acc = (t, Raise URLError).
Proof.
  revert acc. induction to_check as [|job more IH]; intros acc Hin Hnone.
  - by apply elem_of_nil in Hin.
  - cbn [collect_metrics].
    destruct (detail_resp rest (id_of job)) as [det|] eqn:Hdet.
    + apply elem_of_cons in Hin as [->|Hin]; [congruence|].
      destruct (IH (acc ++ [job_metrics_of job det]) Hin Hnone) as [t E].
      rewrite urlopen_Some, bind_Ret, E. by eexists.
    + rewrite urlopen_None, bind_Raise. by eexists.
Qed.

(** X9: without a target (none given, or the empty string) and with every
    exchange succeeding, the answer has one entry for each listed job
    that is not CANCELED, in listing order, with the identifier and the
    status of the listing, and the details of exactly these jobs were
    requested. *)
Theorem metrics_cover_the_jobs_not_canceled (rest : Rest)
    (target : option string) (jobs : list Job) (det : Job -> JobDetails) :
  truthy target = false ->
  jobs_resp rest = Some jobs ->
  (forall j, j ∈ not_canceled jobs ->
             detail_resp rest (id_of j) = Some (det j)) ->
  exists l,
    _get_job_metrics rest target
    = (EvGetJobs :: (EvGetJob <$> (id_of <$> not_canceled jobs)),
       Ret (Some l)) /\
    jm_id <$> l = id_of <$> not_canceled jobs /\
    jm_status <$> l = status_of <$> not_canceled jobs /\
    (forall jm, jm ∈ l -> jm_status jm <> "CANCELED").
Proof.
  intros Ht Hjobs Hok. unfold _get_job_metrics.
  rewrite Hjobs, urlopen_Some, bind_Ret.
  rewrite (jobs_to_check_untargeted _ _ Ht).
  rewrite (collect_metrics_all_ok rest det _ [] Hok), bind_Ret.
  cbn [trace_of outcome_of fst snd ret app].
  rewrite try_except_Ret, app_nil_r.
  eexists. split; [reflexivity|].
  assert (forall js : list Job,
            jm_id <$> ((fun j => job_metrics_of j (det j)) <$> js)
            = id_of <$> js /\
            jm_status <$> ((fun j => job_metrics_of j (det j)) <$> js)
            = status_of <$> js) as Hmap.
  { induction js as [|j js [IH1 IH2]]; [done|]. rewrite !fmap_cons, IH1, IH2.
    destruct (job_metrics_of_header j (det j)) as (-> & -> & _). done. }
  destruct (Hmap (not_canceled jobs)) as [-> ->]. split; [done|].
  split; [done|].
  intros jm (j & -> & Hj)%list_elem_of_fmap.
  destruct (job_metrics_of_header j (det j)) as (_ & -> & _).
  unfold not_canceled in Hj. apply list_elem_of_In, filter_In in Hj.
  destruct Hj as [_ Hj]. intros E. rewrite E in Hj. discriminate.
Qed.

Lemma metrics_cover_the_jobs_not_canceled_witness :
  exists l,
    _get_job_metrics rest_all_details (Some "")
    = (EvGetJobs :: (EvGetJob <$> ["a"; "y"]), Ret (Some l)) /\
    jm_id <$> l = ["a"; "y"] /\
    jm_status <$> l = ["RUNNING"; "FINISHED"] /\
    (forall jm, jm ∈ l -> jm_status jm <> "CANCELED").
Proof.
  apply (metrics_cover_the_jobs_not_canceled rest_all_details (Some "")
           [mkJob "a" "RUNNING"; mkJob "x" "CANCELED"; mkJob "y" "FINISHED"]
           (fun _ => two_task_details));
    [reflexivity | reflexivity |].
  intros j Hj. reflexivity.
Defined.

(** X10: the answer is all or nothing: when the listing cannot be fetched, or
    the details of any one of the jobs to report cannot, the answer is the
    empty dictionary, also when other jobs were fetched before. *)
Theorem metrics_are_all_or_nothing (rest : Rest) (target : option string) :
  jobs_resp rest = None \/
  (exists jobs j, jobs_resp rest = Some jobs /\
                  j ∈ jobs_to_check target jobs /\
                  detail_resp rest (id_of j) = None) ->
  outcome_of (_get_job_metrics rest target) = Ret None.
Proof.
  intros [Hnone | (jobs & j & Hjobs & Hin & Hdet)]; unfold _get_job_metrics.
  - by rewrite Hnone, urlopen_None, bind_Raise, try_except_Raise.
  - rewrite Hjobs, urlopen_Some, bind_Ret.
    destruct (collect_metrics_fails rest _ [] j Hin Hdet) as [t ->].
    rewrite bind_Raise. cbn [trace_of outcome_of fst snd].
    by rewrite try_except_Raise.
Qed.

Lemma metrics_are_all_or_nothing_witness :
  outcome_of (_get_job_metrics rest_last_details_fail None) = Ret None.
Proof.
  apply (metrics_are_all_or_nothing rest_last_details_fail None).
  right. exists [mkJob "a" "RUNNING"; mkJob "x" "CANCELED";
                 mkJob "y" "FINISHED"], (mkJob "y" "FINISHED").
  split; [reflexivity|]. split; [|reflexivity].
  cbn. right. left.
Defined.

(** X11: with a target, the listing and at most the details of the target are
    requested, and the answer holds at most one entry: that of the first
    listed job of that identifier, whatever its status (also CANCELED);
    when the target is not listed any more the answer is an empty list of
    jobs, not the empty dictionary. *)
Theorem targeted_metrics (rest : Rest) (target : string) :
  target <> "" ->
  (trace_of (_get_job_metrics rest (Some target)) = [EvGetJobs] \/
   trace_of (_get_job_metrics rest (Some target))
   = [EvGetJobs; EvGetJob target]) /\
  (forall jobs, jobs_resp rest = Some jobs ->
     (forall j, j ∈ jobs -> id_of j <> target) ->
     _get_job_metrics rest (Some target) = ([EvGetJobs], Ret (Some []))) /\
  (forall before job after job_details,
     jobs_resp rest = Some (before ++ job :: after) ->
     (forall b, b ∈ before -> id_of b <> target) ->
     id_of job = target ->
     detail_resp rest target = Some job_details ->
     outcome_of (_get_job_metrics rest (Some target))
     = Ret (Some [job_metrics_of job job_details])).
Proof.
  intros Hne. split; [|split].
  - unfold _get_job_metrics.
    destruct (jobs_resp rest) as [jobs|].
    + rewrite urlopen_Some, bind_Ret.
      destruct (jobs_to_check_target target jobs Hne)
        as [-> | (job & -> & _ & Hid)]; cbn [collect_metrics].
      * left. reflexivity.
      * right. rewrite Hid.
        destruct (detail_resp rest target) as [det|].
        -- rewrite urlopen_Some, bind_Ret. cbn [collect_metrics].
           unfold ret. cbn [trace_of outcome_of fst snd app].
           rewrite bind_Ret. reflexivity.
        -- rewrite urlopen_None, !bind_Raise.
           cbn [trace_of outcome_of fst snd]. rewrite try_except_Raise.
           reflexivity.
    + left. by rewrite urlopen_None, bind_Raise, try_except_Raise.
  - intros jobs Hjobs Habsent. unfold _get_job_metrics.
    rewrite Hjobs, urlopen_Some, bind_Ret.
    rewrite (jobs_to_check_absent _ _ Hne Habsent). reflexivity.
  - intros before job after job_details Hjobs Hbefore Hid Hdet.
    rewrite <- Hid in Hdet.
    rewrite (get_job_metrics_of_target rest target _ job job_details Hjobs
               (jobs_to_check_first _ _ _ _ Hne Hbefore Hid) Hdet).
    reflexivity.
Qed.

Lemma targeted_metrics_witness :
  (trace_of (_get_job_metrics rest_all_details (Some "x")) = [EvGetJobs] \/
   trace_of (_get_job_metrics rest_all_details (Some "x"))
   = [EvGetJobs; EvGetJob "x"]) /\
  (forall jobs, jobs_resp rest_all_details = Some jobs ->
     (forall j, j ∈ jobs -> id_of j <> "x") ->
     _get_job_metrics rest_all_details (Some "x")
     = ([EvGetJobs], Ret (Some []))) /\
  (forall before job after job_details,
     jobs_resp rest_all_details = Some (before ++ job :: after) ->
     (forall b, b ∈ before -> id_of b <> "x") ->
     id_of job = "x" ->
     detail_resp rest_all_details "x" = Some job_details ->
     outcome_of (_get_job_metrics rest_all_details (Some "x"))
     = Ret (Some [job_metrics_of job job_details])).
Proof.
  apply (targeted_metrics rest_all_details "x"). discriminate.
Defined.

(** ** [cancel_all_jobs] *)

Lemma cancel_requests_prefix cancel jobs :
  cancel_requests cancel jobs `prefix_of` running_ids jobs.
Proof.
  unfold running_ids.
  induction jobs as [|job rest IH]; cbn [cancel_requests List.filter];
    [done|].
  destruct (String.eqb (status_of job) "RUNNING"); [|exact IH].
  rewrite fmap_cons. destruct (cancel (id_of job)).
  - by apply prefix_cons.
  - exists (id_of <$> List.filter
              (fun j => String.eqb (status_of j) "RUNNING") rest).
    reflexivity.
Qed.

Lemma running_ids_spec jobs x :
  x ∈ running_ids jobs <->
  exists j, j ∈ jobs /\ status_of j = "RUNNING" /\ id_of j = x.
Proof.
  unfold running_ids. rewrite list_elem_of_fmap. split.
  - intros (j & -> & Hj). apply list_elem_of_In, filter_In in Hj.
    destruct Hj as [Hin Hrun]. exists j. split; [by apply list_elem_of_In|].
    split; [by apply String.eqb_eq|done].
  - intros (j & Hin & Hrun & <-). exists j. split; [done|].
    apply list_elem_of_In, filter_In. split; [by apply list_elem_of_In|].
    by apply String.eqb_eq.
Qed.

(** X12: the cleanup asks for the listing once and then only sends cancel
    requests: one per job at most, in listing order, and never to a job
    that is not listed as RUNNING; when the listing fails nothing is
    cancelled. *)
Theorem cleanup_cancels_only_running_jobs :
  forall (c : Cleanup),
  exists ids,
    cancel_all_jobs c = (EvGetJobs :: (EvCancel <$> ids), Ret tt) /\
    (cleanup_jobs c = None -> ids = []) /\
    (forall jobs, cleanup_jobs c = Some jobs ->
       ids `prefix_of` running_ids jobs /\
       forall x, x ∈ ids ->
         exists j, j ∈ jobs /\ status_of j = "RUNNING" /\ id_of j = x).
Proof.
  intros c. rewrite cancel_all_jobs_eq, cancel_all_jobs_trace.
  destruct (cleanup_jobs c) as [jobs|].
  - exists (cancel_requests (cancel_resp c) jobs).
    split; [reflexivity|]. split; [discriminate|].
    intros jobs' [= <-].
    pose proof (cancel_requests_prefix (cancel_resp c) jobs) as Hpre.
    split; [exact Hpre|].
    intros x Hx. apply running_ids_spec.
    destruct Hpre as [more ->]. apply elem_of_app. by left.
  - exists []. split; [reflexivity|]. split; [done|]. discriminate.
Qed.

(** ** [run_benchmark] *)

Lemma cancel_all_jobs_shape c :
  exists ids, cancel_all_jobs c = (EvGetJobs :: (EvCancel <$> ids), Ret tt).
Proof.
  rewrite cancel_all_jobs_eq, cancel_all_jobs_trace.
  destruct (cleanup_jobs c) as [jobs|]; [by eexists|by exists []].
Qed.

Lemma run_sql_job_starts_with_write w job_name :
  exists t,
    trace_of (_run_sql_job w job_name)
    = EvWriteFile (sql_file_of job_name) :: t.
Proof.
  destruct (write_ok w) eqn:Hw;
    [|rewrite (run_sql_job_write_fails w job_name Hw); by eexists].
  destruct (exited_zero_or_not (docker_cp w)) as [Hcp|Hcp];
    [|destruct (run_sql_job_copy_fails w job_name Hw Hcp) as (e & -> & _);
      by eexists].
  destruct (run_sql_job_prologue w job_name Hw Hcp) as [t ->]. by eexists.
Qed.

(** X13: every run starts with the cleanup and the settle interval, for every
    workload name and every environment: an unknown workload still has
    the running jobs cancelled before the empty result is returned, and
    for a known one the SQL file named after the workload is written
    only after that. *)
Theorem cleanup_comes_first :
  forall (w : World) (workload : string) (num_records : Z),
  exists ids rest,
    trace_of (run_benchmark w workload num_records)
    = EvGetJobs :: (EvCancel <$> ids) ++ EvSleep 2 :: rest /\
    EvGetJobs :: (EvCancel <$> ids) = trace_of (cancel_all_jobs (cleanup w)) /\
    (known_workload workload ->
     exists rest', rest = EvWriteFile (sql_file_of workload) :: rest') /\
    (~ known_workload workload ->
     rest = [] /\
     outcome_of (run_benchmark w workload num_records) = Ret None).
Proof.
  intros w workload num_records.
  destruct (cancel_all_jobs_shape (cleanup w)) as [ids Hids].
  exists ids.
  assert (forall name,
    exists rest',
      trace_of
        (let* _ := cancel_all_jobs (cleanup w) in
         let* _ := sleep 2 in
         let* result := _run_sql_job w name in
         let* _ := print_summary result num_records in
         ret (Some result))
      = EvGetJobs :: (EvCancel <$> ids) ++
        EvSleep 2 :: EvWriteFile (sql_file_of name) :: rest') as Hrun.
  { intros name. rewrite Hids, bind_Ret, sleep_eq, bind_Ret.
    destruct (run_sql_job_starts_with_write w name) as [t Ht].
    destruct (_run_sql_job w name) as [t' [r|e]];
      cbn [trace_of fst] in Ht; subst t'.
    - rewrite bind_Ret. cbn [trace_of fst app]. by eexists.
    - rewrite bind_Raise. cbn [trace_of fst app]. by eexists. }
  destruct (String.eqb_spec workload "identity") as [->|H1].
  { destruct (Hrun "identity") as [rest' E]. eexists. split; [exact E|].
    split; [by rewrite Hids|]. split; [by eexists|].
    intros Hk. exfalso. apply Hk. by left. }
  destruct (String.eqb_spec workload "wordcount") as [->|H2].
  { destruct (Hrun "wordcount") as [rest' E]. eexists. split; [exact E|].
    split; [by rewrite Hids|]. split; [by eexists|].
    intros Hk. exfalso. apply Hk. right. by left. }
  destruct (String.eqb_spec workload "window") as [->|H3].
  { destruct (Hrun "window") as [rest' E]. eexists. split; [exact E|].
    split; [by rewrite Hids|]. split; [by eexists|].
    intros Hk. exfalso. apply Hk. right. by right. }
  exists [].
  assert (run_benchmark w workload num_records
          = (EvGetJobs :: (EvCancel <$> ids) ++ [EvSleep 2], Ret None)) as E.
  { unfold run_benchmark. rewrite Hids, bind_Ret, sleep_eq, bind_Ret.
    cbn [trace_of outcome_of fst snd].
    destruct (String.eqb_spec workload "identity"); [done|].
    destruct (String.eqb_spec workload "wordcount"); [done|].
    destruct (String.eqb_spec workload "window"); [done|].
    cbn [ret trace_of outcome_of fst snd app]. by rewrite ?app_nil_r. }
  rewrite E. split; [reflexivity|]. split; [by rewrite Hids|].
  split; [|done]. intros [-> | [-> | ->]]; done.
Qed.

(** ** The performance report *)

Lemma no_report_app t1 t2 :
  no_report (t1 ++ t2) = no_report t1 && no_report t2.
Proof. induction t1 as [|[] t1 IH]; cbn [app no_report andb]; done. Qed.

Lemma no_report_cancels ids : no_report (EvCancel <$> ids) = true.
Proof. induction ids; done. Qed.

Lemma collect_metrics_no_report rest to_check acc :
  no_report (trace_of (collect_metrics rest to_check acc)) = true.
Proof.
  revert acc. induction to_check as [|job more IH]; intros acc;
    cbn [collect_metrics]; [done|].
  destruct (detail_resp rest (id_of job)) as [det|].
  - rewrite urlopen_Some, bind_Ret. cbn [trace_of fst app no_report].
    apply IH.
  - by rewrite urlopen_None, bind_Raise.
Qed.

Lemma get_job_metrics_no_report rest target :
  no_report (trace_of (_get_job_metrics rest target)) = true.
Proof.
  unfold _get_job_metrics.
  destruct (jobs_resp rest) as [jobs|].
  - rewrite urlopen_Some, bind_Ret.
    pose proof (collect_metrics_no_report rest
                  (jobs_to_check target jobs) []) as Hr.
    destruct (collect_metrics rest (jobs_to_check target jobs) [])
      as [t [l|e]]; cbn [trace_of fst] in Hr.
    + rewrite bind_Ret. cbn [trace_of outcome_of fst snd ret].
      rewrite try_except_Ret. cbn [trace_of fst app no_report].
      by rewrite app_nil_r.
    + rewrite bind_Raise. cbn [trace_of outcome_of fst snd].
      rewrite try_except_Raise. cbn [trace_of fst app no_report ret].
      by rewrite app_nil_r.
  - by rewrite urlopen_None, bind_Raise, try_except_Raise.
Qed.

Lemma poll_loop_no_report existing tks n :
  forall i st, no_report (trace_of (poll_loop existing tks i n st)) = true.
Proof.
  induction n as [|n IH]; intros i st; [done|]. rewrite poll_loop_S.
  destruct (observed existing (tks i)) as [j|] eqn:Hobs.
  - destruct (poll_tick_observed existing (tks i) st j Hobs)
      as (t & m & Hm & ->).
    pose proof (get_job_metrics_no_report (tick_rest (tks i))
                  (Some (id_of j))) as Hr.
    rewrite Hm in Hr. cbn [trace_of fst] in Hr. rewrite bind_Ret.
    destruct (is_terminal (status_of j)).
    + cbn [trace_of outcome_of fst snd ret app no_report].
      by rewrite app_nil_r.
    + name_rest. cbn [app no_report]. by rewrite no_report_app, Hr, IH.
  - rewrite (poll_tick_unobserved existing (tks i) st Hobs), bind_Ret.
    name_rest. cbn [app no_report]. apply IH.
Qed.

(** X14: in a run within the range of a double, the performance block is
    printed exactly when the result carries a metrics entry, as the last
    thing of the run; it then names the configured record count for a
    FINISHED job and the count reported by the control plane otherwise.
    A run that saw no terminal status prints none, also when the
    fallback reports it FINISHED. *)
Theorem report_needs_a_metrics_entry (w : World) (workload : string)
    (num_records : Z) (returncode : Z) :
  known_workload workload ->
  write_ok w = true ->
  docker_cp w = Exited 0 ->
  submission w = Exited returncode ->
  fits_double num_records ->
  control_plane_in_range w ->
  exists r,
    run_benchmark w workload num_records
    = (trace_of (run_benchmark w workload num_records), Ret (Some r)) /\
    outcome_of (_run_sql_job w workload) = Ret r /\
    (forall jm l, res_metrics r = Some (jm :: l) ->
       exists t duration_sec throughput,
         no_report t = true /\
         trace_of (run_benchmark w workload num_records)
         = t ++ [EvThroughput
                   (if String.eqb (res_status r) "FINISHED"
                    then num_records else records_in jm)
                   duration_sec throughput]) /\
    (res_metrics r = None \/ res_metrics r = Some [] ->
     no_report (trace_of (run_benchmark w workload num_records)) = true) /\
    ((forall k, (k < tick_budget)%nat ->
        terminal_seen (existing_ids_of (baseline_jobs w)) (ticks w k) = false)
     -> no_report (trace_of (run_benchmark w workload num_records)) = true).
Proof.
  intros Hknown Hw Hcp Hsub Hn Hrange.
  destruct (run_sql_job_eq w workload returncode Hw Hcp Hsub)
    as (st & Hst & E).
  destruct (cancel_all_jobs_shape (cleanup w)) as [ids Hids].
  pose proof (poll_loop_no_report (existing_ids_of (baseline_jobs w))
                (ticks w) tick_budget 0 initial_locals) as Hquiet.
  fold (monitor w) in Hquiet.
  pose proof (monitor_metrics_in_range w st Hrange Hst) as Hentries.
  rewrite (run_benchmark_after_job _ _ _ _ _ Hknown E), E.
  rewrite Hids. cbn [trace_of outcome_of fst snd].
  set (r := {| res_job_name := workload;
               res_job_id := job_id st;
               res_status := apply_fallback (final_status st) returncode;
               res_elapsed_sec := PrimFloat.sub (end_clock w) (start_clock w);
               res_metrics := final_metrics st |}).
  assert (no_report ((EvGetJobs :: (EvCancel <$> ids)) ++ [EvSleep 2] ++
                     prologue workload ++ trace_of (monitor w)) = true)
    as Hpre.
  { rewrite !no_report_app, Hquiet. cbn [no_report prologue andb].
    by rewrite no_report_cancels. }
  assert (print_summary r num_records
          = (trace_of (print_summary r num_records), Ret tt)) as Hps.
  { by apply print_summary_in_range. }
  exists r. rewrite Hps. cbn [trace_of outcome_of fst snd].
  split; [reflexivity|]. split; [reflexivity|].
  assert (forall jm l, res_metrics r = Some (jm :: l) ->
            exists duration_sec throughput,
              trace_of (print_summary r num_records)
              = [EvThroughput
                   (if String.eqb (res_status r) "FINISHED"
                    then num_records else records_in jm)
                   duration_sec throughput]) as Hentry.
  { intros jm l Hm. destruct (Hentries jm l Hm) as [Hd Hr].
    destruct (print_summary_entry r num_records jm l Hm Hd)
      as (d & th & ->); [|by eexists _, _].
    by destruct (String.eqb (res_status r) "FINISHED"). }
  assert (res_metrics r = None \/ res_metrics r = Some [] ->
          trace_of (print_summary r num_records) = []) as Hnone.
  { intros Hm. by rewrite (print_summary_no_entry _ _ Hm). }
  split; [|split].
  - intros jm l Hm. destruct (Hentry jm l Hm) as (d & th & ->).
    eexists _, d, th. split; [exact Hpre|].
    by rewrite <- !app_assoc.
  - intros Hm. rewrite (Hnone Hm), app_nil_r. exact Hpre.
  - intros Hnever.
    destruct (poll_loop_no_terminal (existing_ids_of (baseline_jobs w))
                (ticks w) tick_budget 0 initial_locals)
      as (st' & Hst' & _ & Hfm & _).
    { intros k Hk. apply Hnever. lia. }
    fold (monitor w) in Hst'. rewrite Hst in Hst'. injection Hst' as <-.
    rewrite Hnone by (left; exact Hfm). rewrite app_nil_r. exact Hpre.
Qed.

Lemma report_needs_a_metrics_entry_witness :
  exists r,
    run_benchmark world_job_finishes "identity" 100000
    = (trace_of (run_benchmark world_job_finishes "identity" 100000),
       Ret (Some r)) /\
    outcome_of (_run_sql_job world_job_finishes "identity") = Ret r /\
    (forall jm l, res_metrics r = Some (jm :: l) ->
       exists t duration_sec throughput,
         no_report t = true /\
         trace_of (run_benchmark world_job_finishes "identity" 100000)
         = t ++ [EvThroughput
                   (if String.eqb (res_status r) "FINISHED"
                    then 100000 else records_in jm)
                   duration_sec throughput]) /\
    (res_metrics r = None \/ res_metrics r = Some [] ->
     no_report (trace_of (run_benchmark world_job_finishes
                            "identity" 100000)) = true) /\
    ((forall k, (k < tick_budget)%nat ->
        terminal_seen
          (existing_ids_of (baseline_jobs world_job_finishes))
          (ticks world_job_finishes k) = false)
     -> no_report (trace_of (run_benchmark world_job_finishes
                               "identity" 100000)) = true).
Proof.
  apply (report_needs_a_metrics_entry world_job_finishes "identity"
           100000 0);
    [by left | reflexivity | reflexivity | reflexivity
    | vm_compute; reflexivity |].
  intros k job_id job_details _ H. simpl in H. injection H as <-.
  split; vm_compute; reflexivity.
Defined.

(** ** [get_host_ip] *)

Lemma append_cons_l c s1 s2 :
  String.append (String c s1) s2 = String c (String.append s1 s2).
Proof. reflexivity. Qed.

Lemma append_nil_l s : String.append EmptyString s = s.
Proof. reflexivity. Qed.

(** Push [String.append] under the leading characters. *)
Ltac push_append := rewrite ?append_cons_l, ?append_nil_l in *.

Lemma is_empty_spec s : is_empty s = true <-> s = EmptyString.
Proof. destruct s; cbn; split; done. Qed.

Lemma lstrip_spaces pre s :
  all_space pre = true -> lstrip (String.append pre s) = lstrip s.
Proof.
  induction pre as [|c pre IH]; push_append; cbn [all_space lstrip]; [done|].
  intros [Hc Hpre]%andb_prop. rewrite Hc. by apply IH.
Qed.

Lemma lstrip_all_space s : all_space s = true -> lstrip s = EmptyString.
Proof.
  induction s as [|c s IH]; cbn [all_space lstrip]; [done|].
  intros [Hc Hs]%andb_prop. rewrite Hc. by apply IH.
Qed.

Lemma rstrip_token tok s :
  no_space tok = true ->
  rstrip (String.append tok s) = String.append tok (rstrip s).
Proof.
  induction tok as [|c tok IH]; push_append; cbn [no_space rstrip]; [done|].
  intros [Hc Htok]%andb_prop. apply negb_true_iff in Hc.
  rewrite Hc, IH by done. reflexivity.
Qed.

Lemma rstrip_boundary s : at_boundary s = true -> at_boundary (rstrip s) = true.
Proof.
  destruct s as [|c s]; cbn [at_boundary rstrip]; [done|]. intros Hc.
  rewrite Hc. by destruct (is_empty (rstrip s)).
Qed.

Lemma no_space_snoc word c :
  no_space word = true -> is_space c = false ->
  no_space (String.append word (String c EmptyString)) = true.
Proof.
  intros Hw Hc. induction word as [|d word IH]; push_append;
    cbn [no_space] in *.
  - by rewrite Hc.
  - apply andb_prop in Hw as [Hd Hw]. rewrite Hd. by apply IH.
Qed.

Lemma append_snoc word c s :
  String.append (String.append word (String c EmptyString)) s
  = String.append word (String c s).
Proof.
  induction word as [|d word IH]; push_append; [done|]. by rewrite IH.
Qed.

Lemma append_empty_r s : String.append s EmptyString = s.
Proof.
  induction s as [|c s IH]; push_append; [done|]. by rewrite IH.
Qed.

Lemma split_from_token tok :
  forall word s,
    no_space tok = true ->
    split_from word (String.append tok s)
    = split_from (String.append word tok) s.
Proof.
  induction tok as [|c tok IH]; intros word s; push_append;
    cbn [no_space split_from].
  - by rewrite append_empty_r.
  - intros [Hc Htok]%andb_prop. apply negb_true_iff in Hc.
    rewrite Hc, IH by done. by rewrite append_snoc.
Qed.

Lemma split_from_boundary word s :
  word <> EmptyString ->
  at_boundary s = true ->
  exists more, split_from word s = word :: more.
Proof.
  intros Hne Hs. destruct word as [|d word]; [done|].
  destruct s as [|c s]; cbn [at_boundary split_from is_empty] in *.
  - by eexists.
  - rewrite Hs. by eexists.
Qed.

(** The strings [split] returns are maximal runs: none is empty and none
    holds whitespace. *)
Lemma split_from_words s :
  forall word x,
    no_space word = true ->
    x ∈ split_from word s ->
    no_space x = true /\ x <> EmptyString.
Proof.
  induction s as [|c s IH]; intros word x Hword; cbn [split_from].
  - destruct word as [|d word]; cbn [is_empty].
    + intros Hx. by apply elem_of_nil in Hx.
    + intros ->%list_elem_of_singleton. done.
  - destruct (is_space c) eqn:Hc.
    + destruct word as [|d word]; cbn [is_empty].
      * by apply IH.
      * intros [->|Hx]%elem_of_cons; [done|]. by apply (IH EmptyString).
    + apply IH. by apply no_space_snoc.
Qed.

(** A string that is not all whitespace has a first word. *)
Lemma first_word_exists s :
  all_space s = false ->
  exists pre tok post,
    s = String.append pre (String.append tok post) /\
    all_space pre = true /\ no_space tok = true /\
    tok <> EmptyString /\ at_boundary post = true.
Proof.
  assert (forall s, exists tok post,
            s = String.append tok post /\ no_space tok = true /\
            at_boundary post = true) as Hrun.
  { clear s. induction s as [|c s (tok & post & -> & Htok & Hpost)].
    - by exists EmptyString, EmptyString.
    - destruct (is_space c) eqn:Hc.
      + exists EmptyString, (String c (String.append tok post)).
        push_append. cbn [no_space at_boundary]. done.
      + exists (String c tok), post. push_append. cbn [no_space].
        by rewrite Hc, Htok. }
  induction s as [|c s IH]; cbn [all_space]; [done|].
  destruct (is_space c) eqn:Hc; cbn [andb].
  - intros (pre & tok & post & -> & Hpre & H)%IH.
    exists (String c pre), tok, post. push_append. cbn [all_space].
    by rewrite Hc, Hpre.
  - intros _. destruct (Hrun s) as (tok & post & -> & Htok & Hpost).
    exists EmptyString, (String c tok), post. push_append. cbn [no_space].
    by rewrite Hc, Htok.
Qed.

Lemma split_strip_first_word pre tok post :
  all_space pre = true ->
  no_space tok = true ->
  tok <> EmptyString ->
  at_boundary post = true ->
  exists more,
    split (strip (String.append pre (String.append tok post))) = tok :: more.
Proof.
  intros Hpre Htok Hne Hpost. unfold split, strip.
  rewrite (lstrip_spaces _ _ Hpre).
  assert (lstrip (String.append tok post) = String.append tok post) as ->.
  { destruct tok as [|c tok]; [done|]. cbn [no_space] in Htok.
    apply andb_prop in Htok as [Hc _]. apply negb_true_iff in Hc.
    push_append. cbn [lstrip]. by rewrite Hc. }
  rewrite (rstrip_token _ _ Htok), (split_from_token _ _ _ Htok).
  push_append.
  apply split_from_boundary; [done|]. by apply rstrip_boundary.
Qed.

(** X15: the host address is the first whitespace-delimited word that
    [hostname -I] prints: leading whitespace and everything from the next
    whitespace on are dropped. *)
Theorem host_ip_is_the_first_word (pre tok post : string) :
  all_space pre = true ->
  no_space tok = true ->
  tok <> EmptyString ->
  at_boundary post = true ->
  get_host_ip (Exited 0) (String.append pre (String.append tok post))
  = ([EvRun hostname_cmd], Done tok).
Proof.
  intros Hpre Htok Hne Hpost. unfold get_host_ip. cbn [Z.eqb negb].
  by destruct (split_strip_first_word pre tok post Hpre Htok Hne Hpost)
    as [more ->].
Qed.

Lemma host_ip_is_the_first_word_witness :
  get_host_ip (Exited 0)
    (String.append " " (String.append "192.168.1.5"
                          (String.append " 10.0.0.1 " newline)))
  = ([EvRun hostname_cmd], Done "192.168.1.5").
Proof.
  apply (host_ip_is_the_first_word " " "192.168.1.5"
           (String.append " 10.0.0.1 " newline));
    [reflexivity | reflexivity | discriminate | reflexivity].
Defined.

(** X16: [get_host_ip] raises IndexError exactly when [hostname -I] exits with
    status zero and prints nothing but whitespace, and CalledProcessError
    exactly when it exits with a nonzero status; an address it returns is
    never empty and holds no whitespace. *)
Theorem host_ip_errors :
  forall (proc : ProcOutcome) (stdout : string),
    (outcome_of_top (get_host_ip proc stdout) = UncaughtIndexError <->
     proc = Exited 0 /\ all_space stdout = true) /\
    (outcome_of_top (get_host_ip proc stdout) = Uncaught CalledProcessError <->
     exists returncode, proc = Exited returncode /\ returncode <> 0) /\
    (forall address,
       outcome_of_top (get_host_ip proc stdout) = Done address ->
       proc = Exited 0 /\ no_space address = true /\
       address <> EmptyString).
Proof.
  intros proc stdout. unfold get_host_ip, outcome_of_top. cbn [snd].
  destruct proc as [returncode| |].
  - destruct (Z.eqb_spec returncode 0) as [->|Hne]; cbn [negb].
    + destruct (all_space stdout) eqn:Hall.
      * unfold strip, split. rewrite (lstrip_all_space _ Hall).
        cbn [rstrip split_from is_empty].
        split; [split; [done|done]|]. split; [|done].
        split; [done|]. intros (rc & [= <-] & Hrc). done.
      * destruct (first_word_exists stdout Hall)
          as (pre & tok & post & -> & Hpre & Htok & Hne & Hpost).
        destruct (split_strip_first_word pre tok post Hpre Htok Hne Hpost)
          as [more ->].
        split; [split; [done|intros [_ ?]; done]|]. split.
        -- split; [done|]. intros (rc & [= <-] & Hrc). done.
        -- intros address [= <-]. done.
    + split; [split; [done|intros [[= ->] _]; done]|]. split; [|done].
      split; [|done]. intros _. by exists returncode.
  - split; [split; [done|intros [? _]; done]|]. split; [|done].
    split; [done|]. intros (rc & ? & _). done.
  - split; [split; [done|intros [? _]; done]|]. split; [|done].
    split; [done|]. intros (rc & ? & _). done.
Qed.

(** ** [main] *)

Lemma run_workloads_raise env i workload more num_records results e :
  outcome_of (run_benchmark (env i) workload num_records) = Raise e ->
  run_workloads env i (workload :: more) num_records results
  = (trace_of (run_benchmark (env i) workload num_records), Raise e).
Proof.
  intros He. cbn [run_workloads].
  destruct (run_benchmark (env i) workload num_records) as [t o].
  cbn [outcome_of snd] in He. subst o. by rewrite bind_Raise.
Qed.

Lemma run_workloads_ret env i workload more num_records results r :
  outcome_of (run_benchmark (env i) workload num_records) = Ret r ->
  run_workloads env i (workload :: more) num_records results
  = (trace_of (run_benchmark (env i) workload num_records)
       ++ trace_of (run_workloads env (S i) more num_records
                                  (results ++ [r])),
     outcome_of (run_workloads env (S i) more num_records (results ++ [r]))).
Proof.
  intros Hr. cbn [run_workloads].
  destruct (run_benchmark (env i) workload num_records) as [t o].
  cbn [outcome_of snd] in Hr. subst o. by rewrite bind_Ret.
Qed.

(** X17: the cancel action (under either of its names) asks for the host
    address and cleans up, nothing else: no file is written, nothing is
    submitted, nothing sleeps; the exit status is 0 also when the listing
    or a cancel request fails. *)
Theorem main_cancel_action (h : Host) (args : Args) (address : string) :
  action args = "cancel" \/ action args = "cleanup" ->
  outcome_of_top (get_host_ip (hostname_proc h) (hostname_stdout h))
    = Done address ->
  exists ids,
    main h args
    = (EvRun hostname_cmd :: EvGetJobs :: (EvCancel <$> ids), Done 0) /\
    forall jobs, cleanup_jobs (cancel_env h) = Some jobs ->
                 ids `prefix_of` running_ids jobs.
Proof.
  intros Haction Hip. unfold main.
  destruct (get_host_ip (hostname_proc h) (hostname_stdout h)) as [t o] eqn:E.
  assert (t = [EvRun hostname_cmd]) as -> by (by injection E as <- _).
  cbn [outcome_of_top snd] in Hip. subst o.
  assert (String.eqb (action args) "cancel"
          || String.eqb (action args) "cleanup" = true) as ->.
  { destruct Haction as [-> | ->]; reflexivity. }
  rewrite cancel_all_jobs_eq, cancel_all_jobs_trace. unfold escape.
  destruct (cleanup_jobs (cancel_env h)) as [jobs|].
  - exists (cancel_requests (cancel_resp (cancel_env h)) jobs).
    split; [reflexivity|]. intros jobs' [= <-].
    apply cancel_requests_prefix.
  - exists []. split; [reflexivity|]. discriminate.
Qed.

Lemma main_cancel_action_witness :
  exists ids,
    main (host_two_addresses first_cancel_fails (fun _ => world_copy_fails))
         (mkArgs "cleanup" "identity" None 100000)
    = (EvRun hostname_cmd :: EvGetJobs :: (EvCancel <$> ids), Done 0) /\
    forall jobs, cleanup_jobs first_cancel_fails = Some jobs ->
                 ids `prefix_of` running_ids jobs.
Proof.
  apply (main_cancel_action
           (host_two_addresses first_cancel_fails (fun _ => world_copy_fails))
           (mkArgs "cleanup" "identity" None 100000) "192.168.1.5").
  - right. reflexivity.
  - reflexivity.
Defined.

(** X18: with [--workload all] the three workloads run one after the other in
    the order identity, wordcount, window, each as a whole [run_benchmark]
    with its own cleanup, and when each of the three runs returns the
    exit status is 0 whatever the runs returned. *)
Theorem main_runs_all_workloads_in_order (h : Host) (args : Args)
    (address : string) :
  action args = "run" ->
  workload args = "all" ->
  outcome_of_top (get_host_ip (hostname_proc h) (hostname_stdout h))
    = Done address ->
  (exists r, outcome_of (run_benchmark (run_env h 0%nat) "identity"
                                       (records args)) = Ret r) ->
  (exists r, outcome_of (run_benchmark (run_env h 1%nat) "wordcount"
                                       (records args)) = Ret r) ->
  (exists r, outcome_of (run_benchmark (run_env h 2%nat) "window"
                                       (records args)) = Ret r) ->
  main h args
  = ([EvRun hostname_cmd]
       ++ trace_of (run_benchmark (run_env h 0%nat) "identity" (records args))
       ++ trace_of (run_benchmark (run_env h 1%nat) "wordcount" (records args))
       ++ trace_of (run_benchmark (run_env h 2%nat) "window" (records args)),
     Done 0).
Proof.
  intros Haction Hworkload Hip [r0 E0] [r1 E1] [r2 E2]. unfold main.
  destruct (get_host_ip (hostname_proc h) (hostname_stdout h)) as [t o] eqn:E.
  assert (t = [EvRun hostname_cmd]) as -> by (by injection E as <- _).
  cbn [outcome_of_top snd] in Hip. subst o.
  rewrite Haction, Hworkload. cbn [String.eqb Ascii.eqb Bool.eqb orb].
  unfold workloads_of. cbn [String.eqb Ascii.eqb Bool.eqb].
  rewrite (run_workloads_ret _ _ _ _ _ _ _ E0).
  rewrite (run_workloads_ret _ _ _ _ _ _ _ E1).
  rewrite (run_workloads_ret _ _ _ _ _ _ _ E2).
  cbn [run_workloads trace_of outcome_of fst snd ret escape].
  by rewrite app_nil_r.
Qed.

Lemma main_runs_all_workloads_in_order_witness :
  let h := host_two_addresses nothing_to_cancel
             (fun _ => world_fails_on_third_tick) in
  let args := mkArgs "run" "all" None 100000 in
  main h args
  = ([EvRun hostname_cmd]
       ++ trace_of (run_benchmark (run_env h 0%nat) "identity" (records args))
       ++ trace_of (run_benchmark (run_env h 1%nat) "wordcount" (records args))
       ++ trace_of (run_benchmark (run_env h 2%nat) "window" (records args)),
     Done 0).
Proof.
  apply (main_runs_all_workloads_in_order
           (host_two_addresses nothing_to_cancel
              (fun _ => world_fails_on_third_tick))
           (mkArgs "run" "all" None 100000) "192.168.1.5");
    [reflexivity | reflexivity | reflexivity | ..];
    eexists; vm_compute; reflexivity.
Defined.

(** X19: an exception in one run ends [main]: with [--workload all], when the
    identity run returns and the wordcount run raises, the window run
    never starts and the exception leaves [main]. *)
Theorem main_stops_at_the_first_failing_run (h : Host) (args : Args)
    (address : string) (e : Exn) :
  action args = "run" ->
  workload args = "all" ->
  outcome_of_top (get_host_ip (hostname_proc h) (hostname_stdout h))
    = Done address ->
  (exists r, outcome_of (run_benchmark (run_env h 0%nat) "identity"
                                       (records args)) = Ret r) ->
  outcome_of (run_benchmark (run_env h 1%nat) "wordcount" (records args))
    = Raise e ->
  main h args
  = ([EvRun hostname_cmd]
       ++ trace_of (run_benchmark (run_env h 0%nat) "identity" (records args))
       ++ trace_of (run_benchmark (run_env h 1%nat) "wordcount" (records args)),
     Uncaught e).
Proof.
  intros Haction Hworkload Hip [r0 E0] Hraise. unfold main.
  destruct (get_host_ip (hostname_proc h) (hostname_stdout h)) as [t o] eqn:E.
  assert (t = [EvRun hostname_cmd]) as -> by (by injection E as <- _).
  cbn [outcome_of_top snd] in Hip. subst o.
  rewrite Haction, Hworkload. cbn [String.eqb Ascii.eqb Bool.eqb orb].
  unfold workloads_of. cbn [String.eqb Ascii.eqb Bool.eqb].
  rewrite (run_workloads_ret _ _ _ _ _ _ _ E0).
  rewrite (run_workloads_raise _ _ _ _ _ _ _ Hraise).
  reflexivity.
Qed.

Lemma main_stops_at_the_first_failing_run_witness :
  let h := host_two_addresses nothing_to_cancel env_second_copy_fails in
  let args := mkArgs "run" "all" (Some "10.0.0.7") 100000 in
  main h args
  = ([EvRun hostname_cmd]
       ++ trace_of (run_benchmark (run_env h 0%nat) "identity" (records args))
       ++ trace_of (run_benchmark (run_env h 1%nat) "wordcount" (records args)),
     Uncaught CalledProcessError).
Proof.
  apply (main_stops_at_the_first_failing_run
           (host_two_addresses nothing_to_cancel env_second_copy_fails)
           (mkArgs "run" "all" (Some "10.0.0.7") 100000)
           "192.168.1.5" CalledProcessError);
    [reflexivity | reflexivity | reflexivity
    | eexists; vm_compute; reflexivity
    | vm_compute; reflexivity].
Defined.

(** X20: the host address is asked for before the action is looked at and
    also when [--flink-host] is given: when [hostname -I] fails or prints
    only whitespace, [main] ends with that exception and has done
    nothing else. *)
Theorem main_needs_the_host_address (h : Host) (args : Args) :
  hostname_proc h <> Exited 0 \/ all_space (hostname_stdout h) = true ->
  main h args = get_host_ip_failure (hostname_proc h) /\
  fst (main h args) = [EvRun hostname_cmd] /\
  forall status, outcome_of_top (main h args) <> Done status.
Proof.
  intros Hfail.
  assert (main h args = get_host_ip_failure (hostname_proc h)) as E.
  { unfold main, get_host_ip, get_host_ip_failure.
    destruct (hostname_proc h) as [returncode| |]; [|done..].
    destruct (Z.eqb_spec returncode 0) as [->|Hne]; [|done].
    destruct Hfail as [?|Hall]; [done|]. cbn [negb].
    unfold strip, split. rewrite (lstrip_all_space _ Hall). reflexivity. }
  rewrite E. unfold get_host_ip_failure.
  split; [reflexivity|]. split; [reflexivity|].
  intros status. destruct (hostname_proc h) as [returncode| |]; [|done..].
  by destruct (negb (returncode =? 0)).
Qed.

Lemma main_needs_the_host_address_witness :
  main host_without_address (mkArgs "cancel" "identity" (Some "10.0.0.7") 1)
  = get_host_ip_failure (hostname_proc host_without_address) /\
  fst (main host_without_address
            (mkArgs "cancel" "identity" (Some "10.0.0.7") 1))
  = [EvRun hostname_cmd] /\
  forall status,
    outcome_of_top (main host_without_address
                      (mkArgs "cancel" "identity" (Some "10.0.0.7") 1))
    <> Done status.
Proof.
  apply (main_needs_the_host_address host_without_address
           (mkArgs "cancel" "identity" (Some "10.0.0.7") 1)).
  right. reflexivity.
Defined.
